(** * edge-tech: cart aggregation and the recurring-payment worker

    A shallow embedding of
      - [src/server/services/Cart.service.ts] (class [CartService]), and
      - [src/server/services/subscription_service/Worker.service.ts]
        ([processPayment], [WorkerService.instantiateWorker],
        [WorkerService.listen]),
    together with the pieces of the JavaScript runtime and of Sequelize the
    two files rely on.

    Asynchronous code is embedded sequentially: every [await] is a plain
    call, one job and one request are in flight at a time. *)

From Stdlib Require Import ZArith List String Ascii Bool Lia Floats Uint63.
Import ListNotations.

Set Warnings "-inexact-float".

Open Scope Z_scope.

(** ** Results of fallible calls

    A rejected promise or a thrown exception is [Err], a resolved promise is
    [Ok]. *)

Inductive result (E A : Type) : Type :=
| Ok (value : A)
| Err (error : E).

Arguments Ok {E A} value.
Arguments Err {E A} error.

(* ================================================================== *)
(** * Cart.service.ts *)
(* ================================================================== *)

Module CartService.

(** [CartNotFoundError] and [CartItemNotFoundError] of [errors/CartErrors];
    the second one is thrown with and without a message. *)
Inductive CartError : Type :=
| CartNotFoundError
| CartItemNotFoundError (message : option string).

(** Rows of the [Cart] and [CartItem] tables (the columns the service
    reads or writes).  Quantities are integer-valued JS numbers, kept
    here as integers: [+=] and [-=] are the integer operations as long as
    operands and result are integers a JS number holds exactly (up to
    2^53 in size). *)
Record Cart : Type := mkCart {
  cart_id : Z;
  cart_customerId : Z
}.

Record CartItem : Type := mkCartItem {
  item_id : Z;
  item_cartId : Z;
  item_productId : Z;
  item_quantity : Z
}.

(** The relational store: both tables in row order, and the next value of
    the auto-increment key of [CartItem]. *)
Record Store : Type := mkStore {
  carts : list Cart;
  cartItems : list CartItem;
  nextItemId : Z
}.

Definition set_cartItems (s : Store) (rows : list CartItem) : Store :=
  {| carts := carts s; cartItems := rows; nextItemId := nextItemId s |}.

Definition set_quantity (it : CartItem) (q : Z) : CartItem :=
  {| item_id := item_id it; item_cartId := item_cartId it;
     item_productId := item_productId it; item_quantity := q |}.

(** *** Sequelize model calls used by the service *)

(** [Cart.findOne({ where: { customerId } })] *)
Definition Cart_findOne (customerId : Z) (s : Store) : option Cart :=
  find (fun c => cart_customerId c =? customerId) (carts s).

(** [CartItem.findOne({ where: { cartId, productId } })] *)
Definition CartItem_findOne (cartId productId : Z) (s : Store)
  : option CartItem :=
  find (fun it => (item_cartId it =? cartId) && (item_productId it =? productId))
       (cartItems s).

(** [CartItem.findAll({ where: { cartId } })] *)
Definition CartItem_findAll (cartId : Z) (s : Store) : list CartItem :=
  filter (fun it => item_cartId it =? cartId) (cartItems s).

(** [CartItem.findOrCreate({ where: { productId }, defaults })]: the
    [where] clause of the call in [addItemToCart] names [productId] only.
    Returns the row and whether it was created. *)
Definition CartItem_findOrCreate (productId : Z) (defaults : Z * Z * Z)
    (s : Store) : (CartItem * bool) * Store :=
  match find (fun it => item_productId it =? productId) (cartItems s) with
  | Some it => ((it, false), s)
  | None =>
      let '(cartId, pid, quantity) := defaults in
      let row := mkCartItem (nextItemId s) cartId pid quantity in
      ((row, true),
       {| carts := carts s;
          cartItems := cartItems s ++ [row];
          nextItemId := nextItemId s + 1 |})
  end.

(** [item.save()]: writes the instance to the row with its primary key;
    no row is touched when that key is gone. *)
Definition save (it : CartItem) (s : Store) : Store :=
  set_cartItems s
    (map (fun r => if item_id r =? item_id it then it else r) (cartItems s)).

(** [item.destroy()]: deletes the row with the instance's primary key. *)
Definition destroy (it : CartItem) (s : Store) : Store :=
  set_cartItems s
    (filter (fun r => negb (item_id r =? item_id it)) (cartItems s)).

(** [CartItem.destroy({ where: { cartId } })] *)
Definition CartItem_destroy_where (cartId : Z) (s : Store) : Store :=
  set_cartItems s
    (filter (fun r => negb (item_cartId r =? cartId)) (cartItems s)).

(** *** The service methods *)

(** [addItemToCart(customerId, productId, quantity = 1)] *)
Definition addItemToCart (customerId productId : Z) (quantity : option Z)
    (s : Store) : result CartError bool * Store :=
  let quantity := match quantity with Some q => q | None => 1 end in
  match Cart_findOne customerId s with
  | None => (Err CartNotFoundError, s)
  | Some cart =>
      let '((item, created), s1) :=
        CartItem_findOrCreate productId (cart_id cart, productId, quantity) s in
      if negb created then
        let item := set_quantity item (item_quantity item + quantity) in
        (Ok true, save item s1)
      else (Ok true, s1)
  end.

(** [getCartItems(customerId)] *)
Definition getCartItems (customerId : Z) (s : Store)
  : result CartError (list CartItem) :=
  match Cart_findOne customerId s with
  | None => Err CartNotFoundError
  | Some cart =>
      match CartItem_findAll (cart_id cart) s with
      | [] => Err (CartItemNotFoundError (Some "Cart items not found"%string))
      | cartItems => Ok cartItems
      end
  end.

(** [removeItemFromCart(customerId, productId)] *)
Definition removeItemFromCart (customerId productId : Z) (s : Store)
  : result CartError bool * Store :=
  match Cart_findOne customerId s with
  | None => (Err CartNotFoundError, s)
  | Some cart =>
      match CartItem_findOne (cart_id cart) productId s with
      | None => (Err (CartItemNotFoundError None), s)
      | Some item =>
          if 1 <? item_quantity item then
            let item := set_quantity item (item_quantity item - 1) in
            (Ok true, save item s)
          else
            (Ok true, save item (destroy item s))
      end
  end.

(** [clearCart(customerId)] *)
Definition clearCart (customerId : Z) (s : Store)
  : result CartError unit * Store :=
  match Cart_findOne customerId s with
  | None => (Err CartNotFoundError, s)
  | Some cart => (Ok tt, CartItem_destroy_where (cart_id cart) s)
  end.

(** The line items of one cart for one product. *)
Definition itemsOf (cartId productId : Z) (s : Store) : list CartItem :=
  filter (fun it => (item_cartId it =? cartId) && (item_productId it =? productId))
         (cartItems s).

(** Primary keys are unique. *)
Definition keys_unique (s : Store) : Prop :=
  NoDup (map item_id (cartItems s)).

End CartService.

(* ================================================================== *)
(** * The JavaScript runtime pieces the worker uses *)
(* ================================================================== *)

Module JS.

(** ** Numbers

    A JS number is an IEEE 754 binary64 value: Rocq's primitive [float],
    whose [+], [*] and [/] round to nearest, ties to even, as ECMAScript's
    do. *)

Definition number : Type := float.

(** An integer below [2^53] as a number (exact). *)
Definition number_of_Z (n : Z) : number :=
  PrimFloat.of_uint63 (Uint63.of_Z n).

(** [Number.prototype.toFixed(2)], the digits: for a finite [x] with
    [|x| = m * 2^e], "let n be an integer for which n / 10^2 - |x| is as
    close to zero as possible; if there are two such n, pick the larger". *)
Definition toFixed2_digits (m : positive) (e : Z) : Z :=
  if 0 <=? e then Z.pos m * 2 ^ e * 100
  else (200 * Z.pos m + 2 ^ (- e)) / 2 ^ (- e + 1).

(** [parseFloat(x.toFixed(2))].
      - NaN and the infinities print as ["NaN"], ["Infinity"],
        ["-Infinity"] and parse back to themselves;
      - both zeros print as ["0.00"];
      - from [1e21] on, [toFixed] prints [String(x)], which parses back
        to [x];
      - otherwise the string is the sign and [n / 100] in decimal, and
        [parseFloat] yields the number nearest to it.  Below [2^53] both
        [n] and [100] are exact, so that number is the quotient of the two;
        from [2^53] on, numbers near [x] are more than [0.01] apart and
        the nearest one is [x] itself. *)
Definition parseFloat_toFixed2 (x : number) : number :=
  match Prim2SF x with
  | S754_zero _ => 0%float
  | S754_finite s m e =>
      if PrimFloat.leb 1e21 (PrimFloat.abs x) then x
      else
        let n := toFixed2_digits m e in
        if n <? 2 ^ 53 then
          let r := PrimFloat.div (number_of_Z n) 100 in
          if s then PrimFloat.opp r else r
        else x
  | S754_infinity _ => x
  | S754_nan => x
  end.

(** [prices.reduce((acc, price) => acc + price, 0)] *)
Definition sum (prices : list number) : number :=
  fold_left (fun acc price => PrimFloat.add acc price) prices 0%float.

(** ** Dates

    A time value is a number of milliseconds since the epoch, UTC. *)

Definition msPerDay : Z := 86400000.

(** [Day(t)] *)
Definition Day (t : Z) : Z := t / msPerDay.

(** A time value is a valid [Date] within 8.64e15 ms of the epoch;
    [toISOString] throws a [RangeError] on the others. *)
Definition validTime (t : Z) : bool :=
  (- 8640000000000000 <=? t) && (t <=? 8640000000000000).

(** [YearFromTime], [MonthFromTime] (as 1..12) and [DateFromTime] of the
    day number, in the proleptic Gregorian calendar (computed by 400-year
    eras starting on 1 March). *)
Definition civil (day : Z) : Z * Z * Z :=
  let z := day + 719468 in
  let era := z / 146097 in
  let doe := z - era * 146097 in
  let yoe := (doe - doe / 1460 + doe / 36524 - doe / 146096) / 365 in
  let doy := doe - (365 * yoe + yoe / 4 - yoe / 100) in
  let mp := (5 * doy + 2) / 153 in
  let d := doy - (153 * mp + 2) / 5 + 1 in
  let m := if mp <? 10 then mp + 3 else mp - 9 in
  let y := yoe + era * 400 + (if m <=? 2 then 1 else 0) in
  (y, m, d).

Definition digit (n : Z) : ascii :=
  ascii_of_nat (48 + Z.to_nat (n mod 10)).

(** The last [width] decimal digits of [n], zero padded. *)
Fixpoint padded (width : nat) (n : Z) : string :=
  match width with
  | O => EmptyString
  | S w => (padded w (n / 10) ++ String (digit n) EmptyString)%string
  end.

(** The date part of the ISO format: [YYYY-MM-DD], and a sign with six
    digits for years outside 0..9999. *)
Definition isoYear (y : Z) : string :=
  if (0 <=? y) && (y <=? 9999) then padded 4 y
  else if y <? 0 then ("-" ++ padded 6 (Z.abs y))%string
  else ("+" ++ padded 6 y)%string.

Definition isoDateOfDay (day : Z) : string :=
  let '(y, m, d) := civil day in
  (isoYear y ++ "-" ++ padded 2 m ++ "-" ++ padded 2 d)%string.

(** [new Date(t).toISOString().split('T')[0]]; [None] is the
    [RangeError] of an invalid date. *)
Definition toISODate (t : Z) : option string :=
  if validTime t then Some (isoDateOfDay (Day t)) else None.

End JS.

(* ================================================================== *)
(** * subscription_service/Worker.service.ts *)
(* ================================================================== *)

Module Worker.

Import JS.

(** [type WeightRange = 'light' | 'standard' | 'heavy'] *)
Inductive WeightRange : Type := light | standard | heavy.

(** [interface OrderItem] *)
Record OrderItem : Type := mkOrderItem {
  productId : Z;
  quantity : number
}.

(** What a call can throw: the error classes the file names or that the
    shipping calculator documents, [new Error(message)], the [RangeError]
    of an invalid date, and any other rejection of a collaborator. *)
Inductive Error : Type :=
| ProductNotFoundError
| ShippingLocationNotFoundError
| ShippingMethodNotFoundError
| RangeError
| PlainError (message : string)
| OtherError (name : string).

(** [job.data]: the fields the worker reads, and [shippingMethod], which
    the queue contract lists in the enqueued payload and the worker never
    reads.  [period] is in milliseconds, as it is added to [Date.now()]. *)
Record JobData : Type := mkJobData {
  userId : Z;
  orderItems : list OrderItem;
  paymentMethodId : string;
  paymentMethod : string;
  currency : string;
  shippingCountry : string;
  shippingMethod : string;
  period : Z;
  startDate : string;
  endDate : string
}.

Record Job : Type := mkJob {
  job_id : string;
  job_data : JobData
}.

(** Rows: [Product] (the [price] attribute), [Order] (the columns the
    worker reads back) and [Subscription] ([subscriptionData]). *)
Record Product : Type := mkProduct {
  product_id : Z;
  price : number
}.

Record Order : Type := mkOrder {
  order_id : Z;
  order_customerId : Z
}.

Record Subscription : Type := mkSubscription {
  sub_customerId : Z;
  sub_orderId : Z;
  sub_startDate : string;
  sub_endDate : string;
  sub_lastPaymentDate : string;
  sub_nextPaymentDate : string
}.

(** A write staged in the open transaction. *)
Inductive Row : Type :=
| OrderRow (order : Order)
| SubscriptionRow (subscription : Subscription).

(** [{ cost, weightRange }] *)
Record ShippingQuote : Type := mkQuote {
  cost : number;
  weightRange : WeightRange
}.

(** What the worker does to the outside, in order. *)
Inductive Event : Type :=
| ConsoleLog (message : string)
| ConsoleError (label : option string) (error : Error)
| ShippingCostCall (country method : string) (weight : option number)
    (items : list OrderItem)
| PaymentIntentCall (user : Z) (amount : number)
    (currencyCode methodId : string)
| TransactionBegin
| CreateOrderCall (user : Z) (items : list OrderItem)
    (payment country : string) (weight : WeightRange) (method : string)
| SubscriptionCreateCall (subscriptionData : Subscription)
| TransactionCommit
| TransactionRollback.

(** The state the worker runs in: the tables, the writes staged in the
    open transaction, how often the clock was read, and the trace. *)
Record World : Type := mkWorld {
  products : list Product;
  orders : list Order;
  subscriptions : list Subscription;
  staged : list Row;
  clockReads : nat;
  trace : list Event
}.

(** The job as the queue records it once the processor returned. *)
Inductive JobState : Type :=
| completed (returnValue : WeightRange)
| failed (reason : Error).

(** The collaborators whose code is outside the two files: the shipping
    calculator, the payment gateway client, the order service, the
    database session and the clock.  Each answer may depend on the state
    and on everything that happened so far. *)
Record Collaborators : Type := mkCollaborators {
  calculateShippingCost :
    World -> string -> string -> option number -> list OrderItem ->
    result Error ShippingQuote;
  createPaymentIntent :
    World -> Z -> number -> string -> string -> result Error unit;
  createOrder :
    World -> Z -> list OrderItem -> string -> string -> WeightRange ->
    string -> result Error Order;
  Subscription_create : World -> Subscription -> result Error unit;
  sequelize_transaction : World -> result Error unit;
  transaction_commit : World -> result Error unit;
  transaction_rollback : World -> result Error unit;
  Date_now : nat -> Z;
  error_message : Error -> string
}.

(** ** State and exceptions *)

Definition M (A : Type) : Type := World -> result Error A * World.

Definition ret {A : Type} (a : A) : M A := fun w => (Ok a, w).

Definition throw {A : Type} (e : Error) : M A := fun w => (Err e, w).

Definition bind {A B : Type} (m : M A) (k : A -> M B) : M B :=
  fun w =>
    match m w with
    | (Ok a, w1) => k a w1
    | (Err e, w1) => (Err e, w1)
    end.

(** [try { body } catch (error) { handler }] *)
Definition try_catch {A : Type} (body : M A) (handler : Error -> M A) : M A :=
  fun w =>
    match body w with
    | (Ok a, w1) => (Ok a, w1)
    | (Err e, w1) => handler e w1
    end.

Declare Scope worker_scope.
Delimit Scope worker_scope with worker.

Notation "x <- m ;; k" := (bind m (fun x => k))
  (at level 100, m at next level, right associativity) : worker_scope.
Notation "m ;;; k" := (bind m (fun _ => k))
  (at level 100, right associativity) : worker_scope.

Open Scope worker_scope.

Definition set_trace (w : World) (t : list Event) : World :=
  {| products := products w; orders := orders w;
     subscriptions := subscriptions w; staged := staged w;
     clockReads := clockReads w; trace := t |}.

Definition set_staged (w : World) (rows : list Row) : World :=
  {| products := products w; orders := orders w;
     subscriptions := subscriptions w; staged := rows;
     clockReads := clockReads w; trace := trace w |}.

Definition emit (e : Event) : M unit :=
  fun w => (Ok tt, set_trace w (trace w ++ [e])).

(** A call to a collaborator: its outcome is decided on the state at the
    call, and the call is recorded. *)
Definition call {A : Type} (e : Event) (f : World -> result Error A) : M A :=
  fun w => (f w, set_trace w (trace w ++ [e])).

Definition console_log (message : string) : M unit :=
  emit (ConsoleLog message).

Definition console_error (label : option string) (error : Error) : M unit :=
  emit (ConsoleError label error).

(** [Product.findByPk(id, { attributes: ['price'] })] *)
Definition Product_findByPk (id : Z) : M (option Product) :=
  fun w => (Ok (find (fun p => product_id p =? id) (products w)), w).

(** [Promise.all] over promises that only read. *)
Fixpoint Promise_all {A : Type} (promises : list (M A)) : M (list A) :=
  match promises with
  | [] => ret []
  | p :: rest =>
      x <- p ;; xs <- Promise_all rest ;; ret (x :: xs)
  end.

Definition dquote : string := String (ascii_of_nat 34) EmptyString.

Definition orderRows (rows : list Row) : list Order :=
  flat_map (fun r => match r with OrderRow o => [o] | _ => [] end) rows.

Definition subscriptionRows (rows : list Row) : list Subscription :=
  flat_map (fun r => match r with SubscriptionRow s => [s] | _ => [] end) rows.

Definition stage (r : Row) : M unit :=
  fun w => (Ok tt, set_staged w (staged w ++ [r])).

(** The gateway calls in a trace. *)
Definition isCharge (e : Event) : bool :=
  match e with PaymentIntentCall _ _ _ _ => true | _ => false end.

Definition charges (t : list Event) : list Event := filter isCharge t.

(** [x] is the line total of [item]: the price of the product it names,
    times its quantity. *)
Definition priced (w : World) (item : OrderItem) (x : number) : Prop :=
  exists product,
    find (fun p => product_id p =? productId item) (products w) = Some product
    /\ x = PrimFloat.mul (price product) (quantity item).

(** The calls in which a shipping destination and method take part go to
    this destination by this method. *)
Definition shipsBy (country method : string) (e : Event) : Prop :=
  match e with
  | ShippingCostCall c m _ _ => c = country /\ m = method
  | CreateOrderCall _ _ _ c _ m => c = country /\ m = method
  | _ => True
  end.

Section Pipeline.

Variable env : Collaborators.

(** ** Calls to the collaborators *)

Definition shippingService_calculateShippingCost (country method : string)
    (weight : option number) (items : list OrderItem) : M ShippingQuote :=
  call (ShippingCostCall country method weight items)
       (fun w => calculateShippingCost env w country method weight items).

Definition paymentService_createPaymentIntent (user : Z) (amount : number)
    (currencyCode methodId : string) : M unit :=
  call (PaymentIntentCall user amount currencyCode methodId)
       (fun w => createPaymentIntent env w user amount currencyCode methodId).

(** [sequelize.transaction()]: a new handle, nothing staged. *)
Definition sequelize_begin : M unit :=
  call TransactionBegin (sequelize_transaction env) ;;;
  (fun w => (Ok tt, set_staged w [])).

(** Modelled from the spec: the body of [OrderService.createOrder]
    ([services/Order.service.ts] is not among the sources).  "Persists
    Order header + all OrderItems as one atomic unit. Accepts an optional
    caller-supplied transaction handle": called with the worker's handle,
    the order it creates is staged in that transaction. *)
Definition orderService_createOrder (user : Z) (items : list OrderItem)
    (payment country : string) (weight : WeightRange) (method : string)
  : M Order :=
  order <- call (CreateOrderCall user items payment country weight method)
                (fun w => createOrder env w user items payment country
                                      weight method) ;;
  stage (OrderRow order) ;;;
  ret order.

(** [Subscription.create(subscriptionData, { transaction })] *)
Definition Subscription_create_in (subscriptionData : Subscription) : M unit :=
  call (SubscriptionCreateCall subscriptionData)
       (fun w => Subscription_create env w subscriptionData) ;;;
  stage (SubscriptionRow subscriptionData).

(** [transaction.commit()]: the staged writes reach the tables. *)
Definition commit : M unit :=
  call TransactionCommit (transaction_commit env) ;;;
  (fun w =>
     (Ok tt,
      {| products := products w;
         orders := orders w ++ orderRows (staged w);
         subscriptions := subscriptions w ++ subscriptionRows (staged w);
         staged := [];
         clockReads := clockReads w;
         trace := trace w |})).

(** [transaction.rollback()]: it may itself reject (the transaction is
    already finished, the connection is lost); when it resolves the
    staged writes are dropped. *)
Definition rollback : M unit :=
  call TransactionRollback (transaction_rollback env) ;;;
  (fun w => (Ok tt, set_staged w [])).

(** [Date.now()] and the time value of [new Date()]: the next reading of
    the clock. *)
Definition readClock : M Z :=
  fun w =>
    (Ok (Date_now env (clockReads w)),
     {| products := products w; orders := orders w;
        subscriptions := subscriptions w; staged := staged w;
        clockReads := S (clockReads w); trace := trace w |}).

(** [new Date(t).toISOString().split('T')[0]] *)
Definition isoDate (t : Z) : M string :=
  match toISODate t with
  | Some d => ret d
  | None => throw RangeError
  end.

(** ** [processPayment] *)

(** The callback mapped over [job.data.orderItems]. *)
Definition linePrice (item : OrderItem) : M number :=
  product <- Product_findByPk (productId item) ;;
  match product with
  | None => throw ProductNotFoundError
  | Some product => ret (PrimFloat.mul (price product) (quantity item))
  end.

Definition processPayment (job : Job) : M WeightRange :=
  let data := job_data job in
  prices <- Promise_all (map linePrice (orderItems data)) ;;
  let productTotal := sum prices in
  quote <- shippingService_calculateShippingCost
             (shippingCountry data) "next-day" None (orderItems data) ;;
  let totalAmount :=
    parseFloat_toFixed2 (PrimFloat.add productTotal (cost quote)) in
  paymentService_createPaymentIntent
    (userId data) totalAmount (currency data) (paymentMethodId data) ;;;
  console_log "Payment intent created successfully!" ;;;
  ret (weightRange quote).

(** ** [WorkerService] *)

(** The processor given to [new Worker(queueName, ...)]. *)
Definition processor (queueName : string) (job : Job) : M WeightRange :=
  try_catch (processPayment job)
    (fun error =>
       console_error None error ;;;
       throw (PlainError
                (dquote ++ queueName ++ dquote
                 ++ " worker couldn't process it."))).

(** The [try] block of the ['completed'] listener. *)
Definition persist (job : Job) (returnValue : WeightRange)
    (paymentDate nextPaymentDate : string) : M unit :=
  let data := job_data job in
  order <- orderService_createOrder
             (userId data) (orderItems data) (paymentMethod data)
             (shippingCountry data) returnValue "next-day" ;;
  let subscriptionData :=
    {| sub_customerId := order_customerId order;
       sub_orderId := order_id order;
       sub_startDate := startDate data;
       sub_endDate := endDate data;
       sub_lastPaymentDate := paymentDate;
       sub_nextPaymentDate := nextPaymentDate |} in
  Subscription_create_in subscriptionData ;;;
  commit.

(** The statements of the ['completed'] listener before its [try]: the
    log line, [paymentDate], [nextPaymentDate] and
    [await sequelize.transaction()]. *)
Definition prologue (job : Job) : M (string * string) :=
  console_log ("Job: " ++ job_id job ++ " has completed") ;;;
  today <- readClock ;;
  paymentDate <- isoDate today ;;
  now <- readClock ;;
  nextPaymentDate <- isoDate (now + period (job_data job)) ;;
  sequelize_begin ;;;
  ret (paymentDate, nextPaymentDate).

(** [this.worker.on('completed', async (job, returnValue) => ...)] *)
Definition onCompleted (job : Job) (returnValue : WeightRange) : M unit :=
  dates <- prologue job ;;
  let '(paymentDate, nextPaymentDate) := dates in
  try_catch (persist job returnValue paymentDate nextPaymentDate)
    (fun error =>
       rollback ;;;
       console_error (Some "Error from worker's complete event: "%string) error).

(** [this.worker.on('failed', (job, err) => ...)] *)
Definition onFailed (job : option Job) (err : Error) : M unit :=
  console_log
    ("Job"
     ++ match job with
        | Some job => " with id " ++ dquote ++ job_id job ++ dquote
        | None => ""
        end
     ++ " has failed because "
     ++ match err with
        | PlainError message => message
        | _ => error_message env err
        end).

(** [this.worker.on('error', (err) => ...)] *)
Definition onError (err : Error) : M unit :=
  console_error (Some "Error from worker: "%string) err.

(** One delivery of a job by the queue to a worker that is listening: the
    processor runs; when it returns the job is completed and the
    ['completed'] listener runs, when it throws the job is failed and the
    ['failed'] listener runs.  What a listener throws reaches neither the
    job nor the queue. *)
Definition deliver (queueName : string) (job : Job) (w : World)
  : JobState * World :=
  match processor queueName job w with
  | (Ok returnValue, w1) =>
      (completed returnValue, snd (onCompleted job returnValue w1))
  | (Err err, w1) =>
      (failed err, snd (onFailed (Some job) err w1))
  end.

End Pipeline.

End Worker.

(* ================================================================== *)
(** * Concrete stores, jobs and collaborators *)
(* ================================================================== *)

Module Scenario.

Import CartService.

(** Customers 1 and 2 each have a cart; cart 1 holds one unit of
    product 5, cart 2 is empty. *)
Definition twoCarts : Store :=
  {| carts := [mkCart 1 1; mkCart 2 2];
     cartItems := [mkCartItem 1 1 5 1];
     nextItemId := 2 |}.

(** Customer 2 alone, with an empty cart. *)
Definition oneCart : Store :=
  {| carts := [mkCart 2 2]; cartItems := []; nextItemId := 1 |}.

(** Cart 1 holds three units of product 5 and one unit of product 7. *)
Definition filledCart : Store :=
  {| carts := [mkCart 1 1];
     cartItems := [mkCartItem 1 1 5 3; mkCartItem 2 1 7 1];
     nextItemId := 3 |}.

Import Worker.

(** Product 5 costs 20.00; nothing is stored yet. *)
Definition shop : World :=
  {| products := [mkProduct 5 20%float];
     orders := []; subscriptions := []; staged := [];
     clockReads := 0; trace := [] |}.

(** The same, with product 5 deleted. *)
Definition emptyShop : World :=
  {| products := [];
     orders := []; subscriptions := []; staged := [];
     clockReads := 0; trace := [] |}.

(** Two units of product 5 for customer 1, shipped to the US, billed every
    30 days.  The payload asks for the "standard" shipping method. *)
Definition jobData : JobData :=
  {| userId := 1;
     orderItems := [mkOrderItem 5 2%float];
     paymentMethodId := "pm_card";
     paymentMethod := "card";
     currency := "usd";
     shippingCountry := "US";
     shippingMethod := "standard";
     period := 30 * JS.msPerDay;
     startDate := "2024-01-01";
     endDate := "2025-01-01" |}.

Definition job : Job := {| job_id := "1"; job_data := jobData |}.

(** The same payload, enqueued under another job id. *)
Definition job' : Job := {| job_id := "2"; job_data := jobData |}.

(** Next-day shipping to the US costs 9.99 in the standard tier, the gateway
    accepts every charge, the database accepts every write, and the clock
    stands at 2024-01-01T00:00:00Z. *)
Definition services : Collaborators :=
  {| calculateShippingCost := fun _ country method _ _ =>
       if negb (country =? "US")%string then Err ShippingLocationNotFoundError
       else if negb (method =? "next-day")%string
            then Err ShippingMethodNotFoundError
            else Ok (mkQuote 9.99%float standard);
     createPaymentIntent := fun _ _ _ _ _ => Ok tt;
     createOrder := fun w user _ _ _ _ _ =>
       Ok (mkOrder (1 + Z.of_nat (List.length (orders w))) user);
     Subscription_create := fun _ _ => Ok tt;
     sequelize_transaction := fun _ => Ok tt;
     transaction_commit := fun _ => Ok tt;
     transaction_rollback := fun _ => Ok tt;
     Date_now := fun _ => 1704067200000;
     error_message := fun _ => ""%string |}.

(** The same, with a database that refuses the order. *)
Definition servicesOrderRefused : Collaborators :=
  {| calculateShippingCost := calculateShippingCost services;
     createPaymentIntent := createPaymentIntent services;
     createOrder := fun _ _ _ _ _ _ _ => Err (OtherError "SequelizeDatabaseError");
     Subscription_create := Subscription_create services;
     sequelize_transaction := sequelize_transaction services;
     transaction_commit := transaction_commit services;
     transaction_rollback := transaction_rollback services;
     Date_now := Date_now services;
     error_message := error_message services |}.

End Scenario.

(* ================================================================== *)
(** * Further notions over the cart store *)
(* ================================================================== *)

Module CartState.

Import CartService.

(** Primary keys are unique and below the next auto-increment value. *)
Definition wellFormed (s : Store) : Prop :=
  keys_unique s /\
  Forall (fun it => item_id it < nextItemId s) (cartItems s).

(** Every line item holds at least one unit. *)
Definition quantitiesPositive (s : Store) : Prop :=
  Forall (fun it => 1 <= item_quantity it) (cartItems s).

(** [n] calls of [removeItemFromCart(customerId, productId)] in a row. *)
Fixpoint removeTimes (n : nat) (customerId productId : Z) (s : Store)
  : Store :=
  match n with
  | O => s
  | S m =>
      removeTimes m customerId productId
        (snd (removeItemFromCart customerId productId s))
  end.

(** The integers a JS number holds exactly, on which [+] and [-] are the
    integer operations as long as the result is one of them too. *)
Definition safeInteger (n : Z) : Prop := - 2 ^ 53 <= n <= 2 ^ 53.

(** The rows that are not the line items of this cart for this product. *)
Definition elsewhere (cartId productId : Z) (s : Store) : list CartItem :=
  filter
    (fun it =>
       negb ((item_cartId it =? cartId) && (item_productId it =? productId)))
    (cartItems s).

End CartState.


(* ================================================================== *)
(** * Further notions over the worker's runs *)
(* ================================================================== *)

Module WorkerNotions.

Import JS Worker.

(** The events of the ['completed'] listener's transaction. *)
Definition isPersistence (e : Event) : bool :=
  match e with
  | TransactionBegin
  | CreateOrderCall _ _ _ _ _ _
  | SubscriptionCreateCall _
  | TransactionCommit
  | TransactionRollback => true
  | _ => false
  end.

(** A call to the order service is made for this job with this weight
    range: the job's [userId], [orderItems], [paymentMethod] and
    [shippingCountry], and the method "next-day". *)
Definition createsOrderFor (job : Job) (weight : WeightRange) (e : Event)
  : Prop :=
  match e with
  | CreateOrderCall u items payment country wgt method =>
      u = userId (job_data job) /\
      items = orderItems (job_data job) /\
      payment = paymentMethod (job_data job) /\
      country = shippingCountry (job_data job) /\
      wgt = weight /\
      method = "next-day"%string
  | _ => True
  end.

(** "round(x, 2)" for a positive [x = m * 2^e], in hundredths: [n] is the
    integer nearest to [100 * x], the larger one when two are equally
    near ([n - 1/2 <= 100 * x < n + 1/2]). *)
Definition nearestHundredths (m : positive) (e n : Z) : Prop :=
  if 0 <=? e then n = 100 * Z.pos m * 2 ^ e
  else (2 * n - 1) * 2 ^ (- e) <= 200 * Z.pos m < (2 * n + 1) * 2 ^ (- e).

(** What the processor throws, whatever went wrong. *)
Definition processorError (queueName : string) : Error :=
  PlainError (dquote ++ queueName ++ dquote ++ " worker couldn't process it.").

(** The line the ['failed'] listener writes for a job and that error. *)
Definition failedLine (queueName : string) (job : Job) : Event :=
  ConsoleLog
    ("Job" ++ (" with id " ++ dquote ++ job_id job ++ dquote)
     ++ " has failed because "
     ++ (dquote ++ queueName ++ dquote ++ " worker couldn't process it.")).

End WorkerNotions.

Module MoreScenarios.

Import Worker Scenario.

(** [Scenario.job], shipped to a country the calculator does not know. *)
Definition jobAbroad : Job :=
  {| job_id := "3";
     job_data :=
       {| userId := 1;
          orderItems := [mkOrderItem 5 2%float];
          paymentMethodId := "pm_card";
          paymentMethod := "card";
          currency := "usd";
          shippingCountry := "FR";
          shippingMethod := "standard";
          period := 30 * JS.msPerDay;
          startDate := "2024-01-01";
          endDate := "2025-01-01" |} |}.

(** [Scenario.job], billed again after 9e15 ms: past the last valid
    [Date]. *)
Definition jobFarFuture : Job :=
  {| job_id := "4";
     job_data :=
       {| userId := 1;
          orderItems := [mkOrderItem 5 2%float];
          paymentMethodId := "pm_card";
          paymentMethod := "card";
          currency := "usd";
          shippingCountry := "US";
          shippingMethod := "standard";
          period := 9000000000000000;
          startDate := "2024-01-01";
          endDate := "2025-01-01" |} |}.

(** [Scenario.job] without items. *)
Definition jobWithoutItems : Job :=
  {| job_id := "5";
     job_data :=
       {| userId := 1;
          orderItems := [];
          paymentMethodId := "pm_card";
          paymentMethod := "card";
          currency := "usd";
          shippingCountry := "US";
          shippingMethod := "standard";
          period := 30 * JS.msPerDay;
          startDate := "2024-01-01";
          endDate := "2025-01-01" |} |}.

(** [Scenario.services], with a gateway that declines every charge. *)
Definition servicesCardDeclined : Collaborators :=
  {| calculateShippingCost := calculateShippingCost services;
     createPaymentIntent := fun _ _ _ _ _ => Err (OtherError "StripeCardError");
     createOrder := createOrder services;
     Subscription_create := Subscription_create services;
     sequelize_transaction := sequelize_transaction services;
     transaction_commit := transaction_commit services;
     transaction_rollback := transaction_rollback services;
     Date_now := Date_now services;
     error_message := error_message services |}.

(** [Scenario.shop] with two more products: 6 at 0.1 and 7 at 19.995. *)
Definition shelf : World :=
  {| products :=
       [mkProduct 5 20%float; mkProduct 6 0.1%float; mkProduct 7 19.995%float];
     orders := []; subscriptions := []; staged := [];
     clockReads := 0; trace := [] |}.

(** One unit of product 7 and three of product 6, shipped to the US. *)
Definition jobBasket : Job :=
  {| job_id := "6";
     job_data :=
       {| userId := 1;
          orderItems := [mkOrderItem 7 1%float; mkOrderItem 6 3%float];
          paymentMethodId := "pm_card";
          paymentMethod := "card";
          currency := "usd";
          shippingCountry := "US";
          shippingMethod := "standard";
          period := 30 * JS.msPerDay;
          startDate := "2024-01-01";
          endDate := "2025-01-01" |} |}.

(** [Scenario.services], with a database that cannot open a
    transaction. *)
Definition servicesNoTransaction : Collaborators :=
  {| calculateShippingCost := calculateShippingCost services;
     createPaymentIntent := createPaymentIntent services;
     createOrder := createOrder services;
     Subscription_create := Subscription_create services;
     sequelize_transaction := fun _ =>
       Err (OtherError "SequelizeConnectionError");
     transaction_commit := transaction_commit services;
     transaction_rollback := transaction_rollback services;
     Date_now := Date_now services;
     error_message := error_message services |}.

(** [Scenario.services], with a commit that fails; the transaction is
    finished by it, and Sequelize's [rollback()] then throws. *)
Definition servicesCommitFails : Collaborators :=
  {| calculateShippingCost := calculateShippingCost services;
     createPaymentIntent := createPaymentIntent services;
     createOrder := createOrder services;
     Subscription_create := Subscription_create services;
     sequelize_transaction := sequelize_transaction services;
     transaction_commit := fun _ => Err (OtherError "SequelizeDatabaseError");
     transaction_rollback := fun _ =>
       Err (PlainError
              "Transaction cannot be rolled back because it has been finished with state: commit");
     Date_now := Date_now services;
     error_message := error_message services |}.

(** [Scenario.services], with a clock that reads the last millisecond of
    2024-01-01 and then the first of 2024-01-02. *)
Definition servicesAtMidnight : Collaborators :=
  {| calculateShippingCost := calculateShippingCost services;
     createPaymentIntent := createPaymentIntent services;
     createOrder := createOrder services;
     Subscription_create := Subscription_create services;
     sequelize_transaction := sequelize_transaction services;
     transaction_commit := transaction_commit services;
     transaction_rollback := transaction_rollback services;
     Date_now := fun reads =>
       match reads with
       | O => 1704153599999
       | S _ => 1704153600000
       end;
     error_message := error_message services |}.

End MoreScenarios.


(* ================================================================== *)
(** * services/Logging.service.ts *)
(* ================================================================== *)

Module LoggingService.

(** [UserNotFoundError] (thrown with a message) and
    [AdminLogInvalidTargetError] (thrown with the target). *)
Inductive LogError : Type :=
| UserNotFoundError (message : string)
| AdminLogInvalidTargetError (target : string).

(** An [Admin] row joined with its [User] ([include: { model: User, as:
    'user' }]): the key and the user's name. *)
Record Admin : Type := mkAdmin {
  admin_id : Z;
  admin_username : string
}.

Record AdminLog : Type := mkAdminLog {
  log_adminId : Z;
  log_category : string;
  log_text : string
}.

Record PlatformLog : Type := mkPlatformLog {
  platform_type : string;
  platform_message : string
}.

Record Store : Type := mkStore {
  admins : list Admin;
  adminLogs : list AdminLog;
  platformLogs : list PlatformLog
}.

(** [const categories: string[]] *)
Definition categories : list string :=
  ["customer"; "admin"; "category"; "product"; "membership"; "order";
   "shipping country"; "shipping city"; "shipping weight";
   "shipping method"; "review"; "rating"; "sales report"; "stock report";
   "membership"]%string.

(** [categories.includes(target)] *)
Definition includes (l : list string) (x : string) : bool :=
  existsb (fun y => String.eqb y x) l.

(** [const opMap], its own properties. *)
Definition opMap : list (string * string) :=
  [("create", "created a new");
   ("update", "updated an existing");
   ("delete", "deleted an existing")]%string.

Definition dquote : string := String (ascii_of_nat 34) EmptyString.

Section Runtime.

(** How the runtime prints, in a template literal, the member an object
    literal inherits under a name ([constructor], [toString], ...);
    [None] for the names it inherits nothing under. *)
Variable inherited : string -> option string.

(** [`${opMap[operation]}`]: an own property, else an inherited member,
    else [undefined]. *)
Definition opText (operation : string) : string :=
  match find (fun kv => String.eqb (fst kv) operation) opMap with
  | Some kv => snd kv
  | None =>
      match inherited operation with
      | Some text => text
      | None => "undefined"
      end
  end.

(** How the database compares a stored name with the one asked for (its
    collation). *)
Variable sameName : string -> string -> bool.

(** [Admin.findOne({ include: { model: User, as: 'user',
    where: { username } } })] *)
Definition Admin_findOne (username : string) (s : Store) : option Admin :=
  find (fun a => sameName (admin_username a) username) (admins s).

(** [logOperation(username, target, operation = 'create')] *)
Definition logOperation (username target : string) (operation : option string)
    (s : Store) : result LogError unit * Store :=
  let operation :=
    match operation with Some o => o | None => "create"%string end in
  match Admin_findOne username s with
  | None =>
      (Err (UserNotFoundError
              ("Could not log admin " ++ dquote ++ username ++ dquote
               ++ ". Admin not found!")), s)
  | Some admin =>
      if negb (includes categories target)
      then (Err (AdminLogInvalidTargetError target), s)
      else
        let op := opText operation in
        (Ok tt,
         {| admins := admins s;
            adminLogs :=
              adminLogs s
              ++ [{| log_adminId := admin_id admin;
                     log_category := target;
                     log_text :=
                       "Admin " ++ dquote ++ username ++ dquote ++ " " ++ op
                       ++ " " ++ target ++ "." |}];
            platformLogs := platformLogs s |})
  end.

(** [log(type, message)] *)
Definition log (type message : string) (s : Store) : Store :=
  {| admins := admins s;
     adminLogs := adminLogs s;
     platformLogs := platformLogs s ++ [mkPlatformLog type message] |}.

End Runtime.

(** Every admin log names one of the categories and an admin of the
    table. *)
Definition logsValid (s : Store) : Prop :=
  Forall (fun l =>
            In (log_category l) categories /\
            exists a, In a (admins s) /\ admin_id a = log_adminId l)
         (adminLogs s).

(** One admin, "root", and no logs. *)
Definition office : Store :=
  {| admins := [mkAdmin 7 "root"]; adminLogs := []; platformLogs := [] |}.

End LoggingService.


(* ================================================================== *)
(** * Properties of the cart service *)
(* ================================================================== *)

Module CartProperties.

Import CartService CartState.

(** ** Lists of rows *)

Lemma find_split {A : Type} (f : A -> bool) (l : list A) (x : A) :
  find f l = Some x ->
  exists before after,
    l = before ++ x :: after /\ f x = true /\
    forall y, In y before -> f y = false.
Proof.
  induction l as [|a l IH]; simpl; [discriminate|].
  destruct (f a) eqn:Fa.
  - intros [= ->]. exists [], l. repeat split; auto. intros y [].
  - intros H. destruct (IH H) as (b & c & -> & Fx & Hb).
    exists (a :: b), c. repeat split; auto.
    intros y [<- | Hy]; auto.
Qed.

Lemma find_none_iff {A : Type} (f : A -> bool) (l : list A) :
  find f l = None <-> filter f l = [].
Proof.
  induction l as [|a l IH]; simpl; [tauto|].
  destruct (f a); [split; discriminate | exact IH].
Qed.

Section UniqueKeys.

Variables (before after : list CartItem) (item : CartItem).
Hypothesis unique : NoDup (map item_id (before ++ item :: after)).

Lemma other_key (r : CartItem) :
  In r before \/ In r after -> (item_id r =? item_id item) = false.
Proof.
  intros Hr. apply Z.eqb_neq. intros E.
  rewrite map_app in unique. simpl in unique.
  apply NoDup_remove_2 in unique. apply unique.
  rewrite <- E. apply in_or_app.
  destruct Hr as [Hr | Hr]; [left | right]; now apply in_map.
Qed.

(** Writing a row back touches that row only. *)
Lemma save_one (item' : CartItem) :
  item_id item' = item_id item ->
  map (fun r => if item_id r =? item_id item' then item' else r)
      (before ++ item :: after)
  = before ++ item' :: after.
Proof.
  intros E. rewrite E, map_app. simpl. rewrite Z.eqb_refl.
  f_equal; [|f_equal];
    (rewrite <- map_id; apply map_ext_in; intros r Hr;
     rewrite other_key; auto).
Qed.

(** Deleting a row removes that row only. *)
Lemma destroy_one :
  filter (fun r => negb (item_id r =? item_id item)) (before ++ item :: after)
  = before ++ after.
Proof.
  rewrite filter_app. simpl. rewrite Z.eqb_refl. simpl.
  f_equal; apply forallb_filter_id, forallb_forall; intros r Hr;
    rewrite other_key; auto.
Qed.

(** Once the row is gone, writing the instance back writes nothing. *)
Lemma save_gone :
  map (fun r => if item_id r =? item_id item then item else r)
      (before ++ after)
  = before ++ after.
Proof.
  rewrite <- map_id. apply map_ext_in. intros r Hr.
  rewrite other_key; auto. apply in_app_or in Hr. exact Hr.
Qed.

End UniqueKeys.

(** ** Removing an item *)

Lemma find_first_match {A : Type} (f : A -> bool) (before after : list A)
    (x : A) :
  (forall y, In y before -> f y = false) ->
  f x = true ->
  find f (before ++ x :: after) = Some x.
Proof.
  intros Hb Hx. induction before as [|a l IH]; simpl.
  - now rewrite Hx.
  - rewrite (Hb a (or_introl eq_refl)). apply IH.
    intros y Hy. apply Hb. now right.
Qed.

Lemma not_this_line (cartId productId : Z) (r : CartItem) :
  item_cartId r <> cartId \/ item_productId r <> productId ->
  (item_cartId r =? cartId) && (item_productId r =? productId) = false.
Proof.
  intros [H | H]; apply Z.eqb_neq in H; rewrite H;
    [reflexivity | apply andb_false_r].
Qed.

(** C9.  In a store with unique keys, for a customer who has a cart:
    when the first row of that cart for the product holds more than one
    unit (an integer a JS number holds exactly), [removeItemFromCart]
    succeeds and leaves every row in place, that row with exactly one
    unit less; when it holds one unit (or less) the call succeeds and
    that row alone is deleted; and when the cart has no row for the
    product the call fails with [CartItemNotFoundError] and the store is
    unchanged. *)
Theorem removeItemFromCart_spec
    (customerId productId : Z) (s : Store) (cart : Cart) :
  keys_unique s ->
  Cart_findOne customerId s = Some cart ->
  (forall before item after,
      cartItems s = before ++ item :: after ->
      item_cartId item = cart_id cart ->
      item_productId item = productId ->
      (forall r, In r before ->
         item_cartId r <> cart_id cart \/ item_productId r <> productId) ->
      (1 < item_quantity item ->
       item_quantity item <= 2 ^ 53 ->
       removeItemFromCart customerId productId s
       = (Ok true,
          mkStore (carts s)
            (before
             ++ mkCartItem (item_id item) (cart_id cart) productId
                  (item_quantity item - 1)
             :: after)
            (nextItemId s)))
      /\
      (item_quantity item <= 1 ->
       removeItemFromCart customerId productId s
       = (Ok true, mkStore (carts s) (before ++ after) (nextItemId s))))
  /\
  ((forall r, In r (cartItems s) ->
      item_cartId r <> cart_id cart \/ item_productId r <> productId) ->
   removeItemFromCart customerId productId s
   = (Err (CartItemNotFoundError None), s)).
Proof.
  intros U Hcart. unfold keys_unique in U. split.
  - intros before item after E Hc Hp Hb.
    assert (Hfind : CartItem_findOne (cart_id cart) productId s = Some item).
    { unfold CartItem_findOne. rewrite E. apply find_first_match.
      - intros r Hr. apply not_this_line. auto.
      - rewrite Hc, Hp, !Z.eqb_refl. reflexivity. }
    unfold removeItemFromCart. rewrite Hcart, Hfind. rewrite E in U.
    split.
    + intros Hq _.
      replace (1 <? item_quantity item) with true
        by (symmetry; apply Z.ltb_lt; exact Hq).
      unfold save, set_cartItems. rewrite E.
      rewrite (save_one before after item U) by reflexivity.
      unfold set_quantity. rewrite Hc, Hp. reflexivity.
    + intros Hq.
      replace (1 <? item_quantity item) with false
        by (symmetry; apply Z.ltb_ge; exact Hq).
      unfold save, destroy, set_cartItems. simpl. rewrite E.
      rewrite (destroy_one before after item U).
      rewrite (save_gone before after item U). reflexivity.
  - intros Hnone. unfold removeItemFromCart. rewrite Hcart.
    assert (Hfind : CartItem_findOne (cart_id cart) productId s = None).
    { unfold CartItem_findOne. revert Hnone.
      generalize (cartItems s) as rows.
      induction rows as [|a l IH]; simpl; intros Hnone; [reflexivity|].
      rewrite (not_this_line _ _ a (Hnone a (or_introl eq_refl))).
      apply IH. intros r Hr. apply Hnone. now right. }
    rewrite Hfind. reflexivity.
Qed.

Lemma filledCart_keys_unique : keys_unique Scenario.filledCart.
Proof.
  unfold keys_unique. simpl.
  apply NoDup_cons; [simpl; intuition lia|].
  apply NoDup_cons; [simpl; tauto|]. apply NoDup_nil.
Defined.

(** C9 on [Scenario.filledCart], for customer 1: product 5 (three
    units), product 7 (one unit) and product 9 (not in the cart). *)
Lemma removeItemFromCart_spec_witness :
  keys_unique Scenario.filledCart /\
  Cart_findOne 1 Scenario.filledCart = Some (mkCart 1 1) /\
  removeItemFromCart 1 5 Scenario.filledCart
  = (Ok true,
     mkStore [mkCart 1 1] [mkCartItem 1 1 5 2; mkCartItem 2 1 7 1] 3) /\
  removeItemFromCart 1 7 Scenario.filledCart
  = (Ok true, mkStore [mkCart 1 1] [mkCartItem 1 1 5 3] 3) /\
  removeItemFromCart 1 9 Scenario.filledCart
  = (Err (CartItemNotFoundError None), Scenario.filledCart).
Proof.
  split; [exact filledCart_keys_unique|]. split; [reflexivity|].
  split; [|split].
  - destruct (removeItemFromCart_spec 1 5 Scenario.filledCart (mkCart 1 1)
                filledCart_keys_unique eq_refl) as [Hrow _].
    destruct (Hrow [] (mkCartItem 1 1 5 3) [mkCartItem 2 1 7 1]
                eq_refl eq_refl eq_refl
                (fun r (H : In r []) => match H with end)) as [Hmore _].
    apply Hmore; simpl; lia.
  - destruct (removeItemFromCart_spec 1 7 Scenario.filledCart (mkCart 1 1)
                filledCart_keys_unique eq_refl) as [Hrow _].
    assert (Hbefore : forall r, In r [mkCartItem 1 1 5 3] ->
              item_cartId r <> cart_id (mkCart 1 1) \/ item_productId r <> 7).
    { intros r [<- | []]. right. discriminate. }
    destruct (Hrow [mkCartItem 1 1 5 3] (mkCartItem 2 1 7 1) []
                eq_refl eq_refl eq_refl Hbefore) as [_ Hone].
    apply Hone. simpl. lia.
  - destruct (removeItemFromCart_spec 1 9 Scenario.filledCart (mkCart 1 1)
                filledCart_keys_unique eq_refl) as [_ Hnone].
    apply Hnone. intros r [<- | [<- | []]]; right; discriminate.
Defined.

(** The three cases on [Scenario.filledCart]. *)
Example removeItem_quantity_3 :
  removeItemFromCart 1 5 Scenario.filledCart
  = (Ok true,
     set_cartItems Scenario.filledCart
       [mkCartItem 1 1 5 2; mkCartItem 2 1 7 1]).
Proof. reflexivity. Qed.

Example removeItem_quantity_1 :
  removeItemFromCart 1 7 Scenario.filledCart
  = (Ok true, set_cartItems Scenario.filledCart [mkCartItem 1 1 5 3]).
Proof. reflexivity. Qed.

Example removeItem_absent :
  removeItemFromCart 1 9 Scenario.filledCart
  = (Err (CartItemNotFoundError None), Scenario.filledCart).
Proof. reflexivity. Qed.

(** ** Adding an item *)

Lemma find_none_all {A : Type} (f : A -> bool) (l : list A) :
  find f l = None <-> (forall x, In x l -> f x = false).
Proof.
  split; [apply find_none|].
  induction l as [|a l IH]; simpl; [reflexivity|].
  intros H. rewrite (H a (or_introl eq_refl)). apply IH.
  intros x Hx. apply H. now right.
Qed.

(** C10.  [addItemToCart] looks the line item up by [productId] alone.
    There are two distinct customers with distinct carts such that the
    second one's call, for a positive quantity of a product held in the
    first one's cart, adds that quantity to the first one's row and
    leaves the second one's cart without a row for the product.  In
    general, for a customer with a cart in a store with unique keys:
    when no row of any cart has the product, exactly one row is appended,
    for the caller's cart, with the quantity given; when some row has it,
    whichever cart it belongs to, the first such row gets the quantity
    added (integers a JS number holds exactly), every row stays in place
    and none is created. *)
Theorem addItemToCart_by_productId :
  (exists s customer1 customer2 cart1 cart2 productId quantity item,
      customer1 <> customer2 /\
      Cart_findOne customer1 s = Some cart1 /\
      Cart_findOne customer2 s = Some cart2 /\
      cart_id cart1 <> cart_id cart2 /\
      cartItems s = [item] /\
      item_cartId item = cart_id cart1 /\
      item_productId item = productId /\
      0 < quantity /\
      let s' := snd (addItemToCart customer2 productId (Some quantity) s) in
      cartItems s'
      = [mkCartItem (item_id item) (cart_id cart1) productId
           (item_quantity item + quantity)] /\
      itemsOf (cart_id cart2) productId s' = [])
  /\
  (forall customerId productId quantity s cart,
      keys_unique s ->
      Cart_findOne customerId s = Some cart ->
      let s' := snd (addItemToCart customerId productId (Some quantity) s) in
      ((forall r, In r (cartItems s) -> item_productId r <> productId) ->
       s' = mkStore (carts s)
              (cartItems s
               ++ [mkCartItem (nextItemId s) (cart_id cart) productId
                     quantity])
              (nextItemId s + 1))
      /\
      (forall before item after,
          cartItems s = before ++ item :: after ->
          item_productId item = productId ->
          (forall r, In r before -> item_productId r <> productId) ->
          safeInteger (item_quantity item) ->
          safeInteger quantity ->
          safeInteger (item_quantity item + quantity) ->
          s' = mkStore (carts s)
                 (before
                  ++ mkCartItem (item_id item) (item_cartId item) productId
                       (item_quantity item + quantity)
                  :: after)
                 (nextItemId s))).
Proof.
  split.
  - exists Scenario.twoCarts, 1, 2, (mkCart 1 1), (mkCart 2 2), 5, 2,
      (mkCartItem 1 1 5 1).
    repeat split; try reflexivity; try lia; discriminate.
  - intros customerId productId quantity s cart U Hcart. simpl.
    unfold addItemToCart, CartItem_findOrCreate. rewrite Hcart. split.
    + intros Hnone.
      assert (E : find (fun r => item_productId r =? productId) (cartItems s)
                  = None).
      { apply find_none_all. intros x Hx. apply Z.eqb_neq. now apply Hnone. }
      rewrite E. reflexivity.
    + intros before item after E Hp Hb _ _ _.
      assert (Hfind : find (fun r => item_productId r =? productId)
                        (cartItems s) = Some item).
      { rewrite E. apply find_first_match.
        - intros r Hr. apply Z.eqb_neq. auto.
        - now apply Z.eqb_eq. }
      rewrite Hfind. cbn [negb snd]. unfold save, set_cartItems.
      unfold keys_unique in U. rewrite E in U |- *.
      rewrite (save_one before after item U
                 (set_quantity item (item_quantity item + quantity))
                 eq_refl).
      unfold set_quantity. rewrite Hp. reflexivity.
Qed.

(** C10 on [Scenario.twoCarts] and [Scenario.oneCart], for customer 2 and
    two units of product 5: with the product in cart 1 the row of cart 1
    goes from 1 to 3; with the product in no cart a row is created for
    cart 2. *)
Lemma addItemToCart_by_productId_witness :
  snd (addItemToCart 2 5 (Some 2) Scenario.twoCarts)
  = mkStore [mkCart 1 1; mkCart 2 2] [mkCartItem 1 1 5 3] 2 /\
  snd (addItemToCart 2 5 (Some 2) Scenario.oneCart)
  = mkStore [mkCart 2 2] [mkCartItem 1 2 5 2] 2.
Proof.
  destruct addItemToCart_by_productId as [_ Hgeneral]. split.
  - assert (U : keys_unique Scenario.twoCarts).
    { unfold keys_unique. simpl. apply NoDup_cons; [simpl; tauto|].
      apply NoDup_nil. }
    destruct (Hgeneral 2 5 2 Scenario.twoCarts (mkCart 2 2) U eq_refl)
      as [_ Hfound].
    apply (Hfound [] (mkCartItem 1 1 5 1) [] eq_refl eq_refl
             (fun r (H : In r []) => match H with end));
      unfold safeInteger; simpl; lia.
  - assert (U : keys_unique Scenario.oneCart) by apply NoDup_nil.
    destruct (Hgeneral 2 5 2 Scenario.oneCart (mkCart 2 2) U eq_refl)
      as [Hnew _].
    apply Hnew. intros r [].
Defined.

(** C6, at the failing input: in [Scenario.twoCarts] customer 2 adds
    product 5 twice, 2 units and then 3.  Cart 2 ends without a row for
    product 5, and the only row, customer 1's, went from 1 unit to 6. *)
Theorem addItemToCart_twice_other_cart :
  let s1 := snd (addItemToCart 2 5 (Some 2) Scenario.twoCarts) in
  let s2 := snd (addItemToCart 2 5 (Some 3) s1) in
  fst (addItemToCart 2 5 (Some 2) Scenario.twoCarts) = Ok true /\
  fst (addItemToCart 2 5 (Some 3) s1) = Ok true /\
  itemsOf 2 5 s2 = [] /\
  cartItems s2 = [mkCartItem 1 1 5 6].
Proof. repeat split. Qed.

(** Where no cart holds the product yet, two calls do merge: the caller's
    cart ends with one row for the product, holding the sum. *)
Lemma addItemToCart_twice_fresh
    (customerId productId q1 q2 : Z) (s : Store) (cart : Cart) :
  Cart_findOne customerId s = Some cart ->
  (forall it, In it (cartItems s) ->
              item_productId it <> productId /\ item_id it <> nextItemId s) ->
  let s1 := snd (addItemToCart customerId productId (Some q1) s) in
  let s2 := snd (addItemToCart customerId productId (Some q2) s1) in
  cartItems s2
  = cartItems s
    ++ [mkCartItem (nextItemId s) (cart_id cart) productId (q1 + q2)].
Proof.
  intros Hcart Hfresh. simpl.
  assert (E : find (fun r => item_productId r =? productId) (cartItems s)
              = None).
  { apply find_none_all. intros x Hx. apply Z.eqb_neq. now apply Hfresh. }
  unfold addItemToCart at 2. unfold CartItem_findOrCreate.
  rewrite Hcart, E. simpl.
  unfold addItemToCart, CartItem_findOrCreate, Cart_findOne in *. simpl.
  rewrite Hcart.
  assert (E' : find (fun r => item_productId r =? productId)
                 (cartItems s
                  ++ [mkCartItem (nextItemId s) (cart_id cart) productId q1])
               = Some (mkCartItem (nextItemId s) (cart_id cart) productId q1)).
  { clear - E. induction (cartItems s) as [|a l IH]; simpl in *.
    - now rewrite Z.eqb_refl.
    - destruct (item_productId a =? productId); [discriminate | auto]. }
  rewrite E'. simpl. rewrite map_app. simpl. rewrite Z.eqb_refl.
  f_equal. rewrite <- map_id. apply map_ext_in. intros r Hr.
  destruct (Hfresh r Hr) as [_ Hid].
  apply Z.eqb_neq in Hid. now rewrite Hid.
Qed.


End CartProperties.

(* ================================================================== *)
(** * Properties of the billing worker *)
(* ================================================================== *)

Module WorkerProperties.

Import JS Worker WorkerNotions.

Ltac run :=
  unfold bind, ret, throw, try_catch, call, stage, console_log,
    console_error, emit, set_trace, set_staged; simpl.

Section Pricing.

Variable env : Collaborators.

(** ** Pricing *)

Lemma linePrice_run (item : OrderItem) (w : World) :
  linePrice item w
  = (match find (fun p => product_id p =? productId item) (products w) with
     | Some product => Ok (PrimFloat.mul (price product) (quantity item))
     | None => Err ProductNotFoundError
     end, w).
Proof.
  unfold linePrice, Product_findByPk. run.
  destruct (find _ (products w)); reflexivity.
Qed.

(** The lookups read; and fail only with [ProductNotFoundError]. *)
Lemma prices_found (items : list OrderItem) (w : World) :
  (forall item, In item items ->
     exists product,
       find (fun p => product_id p =? productId item) (products w)
       = Some product) ->
  exists prices,
    Promise_all (map linePrice items) w = (Ok prices, w) /\
    Forall2 (priced w) items prices.
Proof.
  induction items as [|item items IH]; intros H.
  - exists []. split; [reflexivity | constructor].
  - destruct (H item (or_introl eq_refl)) as [product Hp].
    destruct IH as (prices & Hall & Hrel).
    { intros i Hi. apply H. now right. }
    exists (PrimFloat.mul (price product) (quantity item) :: prices).
    split.
    + simpl. unfold bind at 1. rewrite linePrice_run, Hp.
      unfold bind at 1. rewrite Hall. reflexivity.
    + constructor; [exists product; auto | exact Hrel].
Qed.

Lemma prices_missing (items : list OrderItem) (w : World) :
  (exists item, In item items /\
     find (fun p => product_id p =? productId item) (products w) = None) ->
  Promise_all (map linePrice items) w = (Err ProductNotFoundError, w).
Proof.
  induction items as [|item items IH]; intros (i & Hi & Hnone).
  - destruct Hi.
  - simpl. unfold bind at 1. rewrite linePrice_run.
    destruct (find (fun p => product_id p =? productId item) (products w))
      as [product|] eqn:E; [|reflexivity].
    destruct Hi as [-> | Hi]; [congruence|].
    unfold bind at 1. rewrite IH; [reflexivity|]. now exists i.
Qed.

Lemma prices_run (items : list OrderItem) (w : World) :
  exists r, Promise_all (map linePrice items) w = (r, w) /\
            (forall e, r = Err e -> e = ProductNotFoundError /\
               exists item, In item items /\
                 find (fun p => product_id p =? productId item) (products w)
                 = None).
Proof.
  induction items as [|item items IH].
  - exists (Ok []). split; [reflexivity | discriminate].
  - destruct IH as (r & Hr & He). simpl.
    unfold bind at 1. rewrite linePrice_run.
    destruct (find (fun p => product_id p =? productId item) (products w))
      as [product|] eqn:E.
    + unfold bind at 1. rewrite Hr. destruct r as [prices | e].
      * eexists. split; [reflexivity | discriminate].
      * eexists. split; [reflexivity|]. intros e' [= <-].
        destruct (He e eq_refl) as (-> & i & Hi & Hn).
        split; [reflexivity|]. exists i. split; [now right | exact Hn].
    + eexists. split; [reflexivity|]. intros e [= <-].
      split; [reflexivity|]. exists item. split; [now left | exact E].
Qed.

(** ** [processPayment], step by step *)

Lemma processPayment_missing (job : Job) (w : World) (e : Error) :
  Promise_all (map linePrice (orderItems (job_data job))) w = (Err e, w) ->
  processPayment env job w = (Err e, w).
Proof.
  intros H. unfold processPayment. unfold bind at 1. rewrite H. reflexivity.
Qed.

Lemma processPayment_priced (job : Job) (w : World) (prices : list number) :
  let data := job_data job in
  Promise_all (map linePrice (orderItems data)) w = (Ok prices, w) ->
  processPayment env job w
  = let shipping :=
      ShippingCostCall (shippingCountry data) "next-day" None
        (orderItems data) in
    let w1 := set_trace w (trace w ++ [shipping]) in
    match calculateShippingCost env w (shippingCountry data) "next-day" None
            (orderItems data) with
    | Err e => (Err e, w1)
    | Ok quote =>
        let amount :=
          parseFloat_toFixed2 (PrimFloat.add (sum prices) (cost quote)) in
        let charge :=
          PaymentIntentCall (userId data) amount (currency data)
            (paymentMethodId data) in
        let w2 := set_trace w (trace w ++ [shipping; charge]) in
        match createPaymentIntent env w1 (userId data) amount (currency data)
                (paymentMethodId data) with
        | Err e => (Err e, w2)
        | Ok _ =>
            (Ok (weightRange quote),
             set_trace w
               (trace w
                ++ [shipping; charge;
                    ConsoleLog "Payment intent created successfully!"]))
        end
    end.
Proof.
  intros data H. unfold processPayment. fold data.
  unfold bind at 1. rewrite H.
  unfold shippingService_calculateShippingCost,
    paymentService_createPaymentIntent. run.
  destruct (calculateShippingCost env w _ _ _ _) as [quote | e];
    [|reflexivity].
  destruct (createPaymentIntent env _ _ _ _ _) as [[] | e];
    rewrite <- ?app_assoc; reflexivity.
Qed.

End Pricing.

Ltac listener :=
  unfold onCompleted, prologue, persist, sequelize_begin, readClock, isoDate,
    orderService_createOrder, Subscription_create_in, commit, rollback,
    onFailed; run.

(** Case analysis on the innermost outcome the goal still branches on. *)
Ltac split_match :=
  match goal with
  | |- context [match ?x with _ => _ end] =>
      lazymatch x with
      | context [match _ with _ => _ end] => fail
      | _ => destruct x eqn:?
      end
  end.

(** The events a run adds are given by the trace it leaves. *)
Ltac added_events :=
  eexists; split;
  [ rewrite <- ?app_assoc; simpl; try reflexivity;
    symmetry; apply app_nil_r
  | ].

Lemma charges_app (t u : list Event) :
  charges (t ++ u) = charges t ++ charges u.
Proof. apply filter_app. Qed.

Lemma app_one_neq {A : Type} (l : list A) (x : A) : l <> l ++ [x].
Proof.
  intros E. apply (f_equal (@List.length A)) in E.
  rewrite length_app in E. simpl in E. lia.
Qed.

Lemma app_one_inj {A : Type} (l : list A) (x y : A) :
  l ++ [x] = l ++ [y] -> x = y.
Proof. intros E. apply app_inv_head in E. now injection E. Qed.

Section Runs.

Variable env : Collaborators.

(** ** The processor *)

(** A run of the processor leaves everything but the trace as it was;
    its calls ship to the job's country by "next-day"; and when it
    returns, the gateway was called once and accepted the charge. *)
Lemma processor_run (queueName : string) (job : Job) (w : World) :
  let data := job_data job in
  let r := fst (processor env queueName job w) in
  let w1 := snd (processor env queueName job w) in
  exists evs,
    w1 = set_trace w (trace w ++ evs) /\
    Forall (shipsBy (shippingCountry data) "next-day") evs /\
    (forall wr, r = Ok wr ->
       exists amount wc,
         createPaymentIntent env wc (userId data) amount (currency data)
           (paymentMethodId data) = Ok tt /\
         evs = [ShippingCostCall (shippingCountry data) "next-day" None
                  (orderItems data);
                PaymentIntentCall (userId data) amount (currency data)
                  (paymentMethodId data);
                ConsoleLog "Payment intent created successfully!"]).
Proof.
  intros data r w1. subst r w1. unfold processor, try_catch.
  destruct (prices_run (orderItems data) w) as ([prices | e] & Hp & He).
  - rewrite (processPayment_priced env job w prices Hp). fold data. simpl.
    destruct (calculateShippingCost env w _ _ _ _) as [quote | e]; simpl.
    + destruct (createPaymentIntent env _ _ _ _ _) as [[] | e] eqn:Hc; run.
      * eexists. split; [reflexivity|]. split.
        { repeat constructor. }
        intros wr _. eexists. eexists. split; [exact Hc | reflexivity].
      * rewrite <- app_assoc. eexists. split; [reflexivity|]. split.
        { repeat constructor. }
        discriminate.
    + run. rewrite <- app_assoc. eexists. split; [reflexivity|]. split.
      { repeat constructor. }
      discriminate.
  - rewrite (processPayment_missing env job w e Hp). run.
    eexists. split; [reflexivity|]. split.
    { repeat constructor. }
    discriminate.
Qed.

(** ** The ['completed'] listener *)

(** The listener leaves the products alone, calls no gateway, ships by
    "next-day", and either leaves both tables as they were or appends one
    order and its subscription, dated from the two readings of the
    clock. *)
Lemma onCompleted_run (job : Job) (wr : WeightRange) (w : World) :
  let data := job_data job in
  let w' := snd (onCompleted env job wr w) in
  products w' = products w /\
  (exists evs,
      trace w' = trace w ++ evs /\
      Forall (shipsBy (shippingCountry data) "next-day") evs /\
      charges evs = []) /\
  ((orders w' = orders w /\ subscriptions w' = subscriptions w) \/
   exists order sub,
     orders w' = orders w ++ [order] /\
     subscriptions w' = subscriptions w ++ [sub] /\
     sub_orderId sub = order_id order /\
     sub_customerId sub = order_customerId order /\
     Some (sub_lastPaymentDate sub) = toISODate (Date_now env (clockReads w)) /\
     Some (sub_nextPaymentDate sub)
     = toISODate (Date_now env (S (clockReads w)) + period data)).
Proof.
  intros data w'. subst w'. listener. fold data.
  repeat (split_match; simpl).
  all: split; [reflexivity|].
  all: split; [added_events; split; [repeat constructor | reflexivity] |].
  all: try (left; split; reflexivity).
  right. eexists. eexists. repeat split; auto.
Qed.

(** ** Delivery of a job *)

Lemma deliver_completed (queueName : string) (job : Job) (w : World)
    (wr : WeightRange) :
  fst (processor env queueName job w) = Ok wr ->
  deliver env queueName job w
  = (completed wr,
     snd (onCompleted env job wr (snd (processor env queueName job w)))).
Proof.
  unfold deliver. destruct (processor env queueName job w) as [[v | e] w1];
    simpl; [intros [= ->]; reflexivity | discriminate].
Qed.

Lemma deliver_failed (queueName : string) (job : Job) (w : World)
    (e : Error) :
  fst (processor env queueName job w) = Err e ->
  deliver env queueName job w
  = (failed e,
     snd (onFailed env (Some job) e (snd (processor env queueName job w)))).
Proof.
  unfold deliver. destruct (processor env queueName job w) as [[v | e'] w1];
    simpl; [discriminate | intros [= ->]; reflexivity].
Qed.

(** C2.  After a delivery of a job, either the [Order] and
    [Subscription] tables are both as they were, or exactly one order and
    one subscription referring to it were appended; and in the second
    case the gateway call for the job's customer, currency and payment
    method was made during the delivery and accepted. *)
Theorem order_and_subscription_together
    (queueName : string) (job : Job) (w : World) :
  let data := job_data job in
  let w' := snd (deliver env queueName job w) in
  (orders w' = orders w /\ subscriptions w' = subscriptions w)
  \/
  (exists order sub amount wc,
      createPaymentIntent env wc (userId data) amount (currency data)
        (paymentMethodId data) = Ok tt /\
      charges (trace w')
      = charges (trace w)
        ++ [PaymentIntentCall (userId data) amount (currency data)
              (paymentMethodId data)] /\
      orders w' = orders w ++ [order] /\
      subscriptions w' = subscriptions w ++ [sub] /\
      sub_orderId sub = order_id order).
Proof.
  intros data w'. subst w'.
  destruct (processor_run queueName job w) as (evs & Hw1 & _ & Hcharged).
  fold data in Hcharged.
  destruct (fst (processor env queueName job w)) as [wr | e] eqn:Hr.
  - rewrite (deliver_completed queueName job w wr Hr), Hw1. simpl.
    destruct (onCompleted_run job wr (set_trace w (trace w ++ evs)))
      as (_ & (evs' & Ht & _ & Hnone) & Htables).
    simpl in Htables, Ht.
    destruct Htables as [Hsame | (order & sub & Ho & Hs & Hid & _)].
    + left. exact Hsame.
    + right. destruct (Hcharged wr eq_refl) as (amount & wc & Hok & ->).
      exists order, sub, amount, wc. repeat split; auto.
      rewrite Ht, !charges_app, Hnone, app_nil_r. reflexivity.
  - rewrite (deliver_failed queueName job w e Hr). rewrite Hw1.
    left. split; reflexivity.
Qed.

(** The statements before the [try] leave the tables alone; they end at
    the log line (a date is invalid) or at the opening of the transaction
    (it fails, or it succeeds with nothing staged). *)
Lemma prologue_run (job : Job) (w w2 : World)
    (r : result Error (string * string)) :
  prologue env job w = (r, w2) ->
  let line := ConsoleLog ("Job: " ++ job_id job ++ " has completed") in
  orders w2 = orders w /\
  subscriptions w2 = subscriptions w /\
  (forall e, r = Err e ->
     trace w2 = trace w ++ [line] \/
     trace w2 = trace w ++ [line; TransactionBegin]) /\
  (forall dates, r = Ok dates ->
     staged w2 = [] /\ trace w2 = trace w ++ [line; TransactionBegin]).
Proof.
  listener. repeat (split_match; simpl); intros [= <- <-]; simpl.
  all: repeat split; auto; try discriminate.
  all: intros; rewrite <- ?app_assoc; auto.
Qed.

(** A [try] block that throws has written to no table. *)
Lemma persist_throws (job : Job) (wr : WeightRange)
    (paymentDate nextPaymentDate : string) (w2 w3 : World) (e : Error) :
  persist env job wr paymentDate nextPaymentDate w2 = (Err e, w3) ->
  orders w3 = orders w2 /\ subscriptions w3 = subscriptions w2.
Proof.
  listener. repeat (split_match; simpl); intros [= <- <-]; split; reflexivity.
Qed.

(** C3.  When the processor returned (the charge went through), the job
    is completed whatever the listener does next.  When the listener
    throws before its [try] block (a date is invalid, or the transaction
    cannot be opened), it does nothing more: both tables are as they
    were and nothing is rolled back or written to [console.error].  When
    the [try] block throws, both tables are as they were and
    [transaction.rollback()] is called; if the rollback resolves, nothing
    is left staged, the error is written to [console.error] and the
    listener returns; if the rollback itself rejects, the listener
    rejects with the rollback's error and writes nothing. *)
Theorem persistence_failure_after_charge
    (queueName : string) (job : Job) (w w1 : World) (wr : WeightRange) :
  processor env queueName job w = (Ok wr, w1) ->
  let w' := snd (deliver env queueName job w) in
  let outcome := fst (onCompleted env job wr w1) in
  let line := ConsoleLog ("Job: " ++ job_id job ++ " has completed") in
  fst (deliver env queueName job w) = completed wr /\
  (forall e w2,
      prologue env job w1 = (Err e, w2) ->
      outcome = Err e /\
      orders w' = orders w /\
      subscriptions w' = subscriptions w /\
      (trace w' = trace w1 ++ [line] \/
       trace w' = trace w1 ++ [line; TransactionBegin]))
  /\
  (forall paymentDate nextPaymentDate w2 e w3,
      prologue env job w1 = (Ok (paymentDate, nextPaymentDate), w2) ->
      persist env job wr paymentDate nextPaymentDate w2 = (Err e, w3) ->
      orders w' = orders w /\
      subscriptions w' = subscriptions w /\
      (transaction_rollback env w3 = Ok tt ->
       outcome = Ok tt /\
       staged w' = [] /\
       trace w'
       = trace w3
         ++ [TransactionRollback;
             ConsoleError
               (Some "Error from worker's complete event: "%string) e])
      /\
      (forall e',
          transaction_rollback env w3 = Err e' ->
          outcome = Err e' /\
          trace w' = trace w3 ++ [TransactionRollback])).
Proof.
  intros Hproc.
  destruct (processor_run queueName job w) as (evs & Hw1 & _).
  rewrite Hproc in Hw1. simpl in Hw1.
  assert (Ho1 : orders w1 = orders w) by (subst w1; reflexivity).
  assert (Hs1 : subscriptions w1 = subscriptions w) by (subst w1; reflexivity).
  unfold deliver. rewrite Hproc. cbn [fst snd].
  split; [reflexivity|]. split.
  - intros e w2 Hpro.
    destruct (prologue_run job w1 w2 _ Hpro) as (Ho & Hs & Herr & _).
    unfold onCompleted, bind. rewrite Hpro. cbn [fst snd].
    repeat split; try congruence. exact (Herr e eq_refl).
  - intros paymentDate nextPaymentDate w2 e w3 Hpro Hper.
    destruct (prologue_run job w1 w2 _ Hpro) as (Ho & Hs & _).
    destruct (persist_throws _ _ _ _ _ _ _ Hper) as (Ho3 & Hs3).
    unfold onCompleted, bind. rewrite Hpro. unfold try_catch. rewrite Hper.
    unfold rollback. run.
    destruct (transaction_rollback env w3) as [[] | e'] eqn:Hroll; simpl.
    + split; [congruence|]. split; [congruence|]. split.
      * intros _. split; [reflexivity|]. split; [reflexivity|].
        rewrite <- app_assoc. reflexivity.
      * intros e'' H. discriminate H.
    + split; [congruence|]. split; [congruence|]. split.
      * intros H. discriminate H.
      * intros e'' [= <-]. split; reflexivity.
Qed.

(** C5.  When an item of the job names a product that is not in the
    table, [processPayment] throws [ProductNotFoundError] and changes
    nothing; the delivery fails the job with the processor's own
    [Error], names both errors on the console, calls no gateway and
    leaves the tables as they were. *)
Theorem missing_product_fails_job
    (queueName : string) (job : Job) (w : World) :
  (exists item,
      In item (orderItems (job_data job)) /\
      find (fun p => product_id p =? productId item) (products w) = None) ->
  let reason :=
    (dquote ++ queueName ++ dquote ++ " worker couldn't process it.")%string in
  let w' := snd (deliver env queueName job w) in
  processPayment env job w = (Err ProductNotFoundError, w) /\
  fst (deliver env queueName job w) = failed (PlainError reason) /\
  trace w'
  = trace w
    ++ [ConsoleError None ProductNotFoundError;
        ConsoleLog ("Job" ++ (" with id " ++ dquote ++ job_id job ++ dquote)
                    ++ " has failed because " ++ reason)] /\
  charges (trace w') = charges (trace w) /\
  orders w' = orders w /\
  subscriptions w' = subscriptions w.
Proof.
  intros Hmissing reason w'. subst w'.
  pose proof (processPayment_missing env job w _
                (prices_missing _ w Hmissing)) as Hpay.
  split; [exact Hpay|].
  unfold deliver, processor, try_catch. rewrite Hpay. unfold onFailed. run.
  repeat split.
  - rewrite <- app_assoc. reflexivity.
  - rewrite <- app_assoc, charges_app. simpl. apply app_nil_r.
Qed.

(** C7.  Every call a delivery makes to the shipping calculator or to the
    order service names the job's [shippingCountry] and the method
    "next-day", whatever the payload's [shippingMethod]; and when all
    products of the job exist the calculator is called so, with the job's
    items and no weight. *)
Theorem shipping_method_is_next_day
    (queueName : string) (job : Job) (w : World) :
  let data := job_data job in
  exists evs,
    trace (snd (deliver env queueName job w)) = trace w ++ evs /\
    Forall (shipsBy (shippingCountry data) "next-day") evs /\
    ((forall item, In item (orderItems data) ->
        exists product,
          find (fun p => product_id p =? productId item) (products w)
          = Some product) ->
     In (ShippingCostCall (shippingCountry data) "next-day" None
           (orderItems data)) evs).
Proof.
  intros data.
  destruct (processor_run queueName job w) as (evs & Hw1 & Hships & _).
  fold data in Hships.
  assert (Hcall :
    (forall item, In item (orderItems data) ->
        exists product,
          find (fun p => product_id p =? productId item) (products w)
          = Some product) ->
     In (ShippingCostCall (shippingCountry data) "next-day" None
           (orderItems data)) evs).
  { intros Hall. destruct (prices_found _ w Hall) as (prices & Hp & _).
    revert Hw1. unfold processor, try_catch.
    rewrite (processPayment_priced env job w prices Hp). fold data. simpl.
    destruct (calculateShippingCost env w _ _ _ _) as [quote | e]; simpl.
    - destruct (createPaymentIntent env _ _ _ _ _) as [[] | e']; run;
        rewrite <- ?app_assoc; intros E;
        apply (f_equal trace) in E; simpl in E;
        apply app_inv_head in E; subst evs; simpl; auto.
    - run. rewrite <- app_assoc. intros E.
      apply (f_equal trace) in E; simpl in E.
      apply app_inv_head in E; subst evs; simpl; auto. }
  destruct (fst (processor env queueName job w)) as [wr | e] eqn:Hr.
  - rewrite (deliver_completed queueName job w wr Hr), Hw1. simpl.
    destruct (onCompleted_run job wr (set_trace w (trace w ++ evs)))
      as (_ & (evs' & Ht & Hships' & _) & _).
    simpl in Ht. fold data in Hships'.
    exists (evs ++ evs'). split; [rewrite Ht, app_assoc; reflexivity|].
    split; [apply Forall_app; auto|].
    intros Hall. apply in_or_app. left. auto.
  - rewrite (deliver_failed queueName job w e Hr). rewrite Hw1.
    unfold onFailed. run. eexists. split; [rewrite <- app_assoc; reflexivity|].
    split.
    + apply Forall_app. split; [exact Hships | repeat constructor].
    + intros Hall. apply in_or_app. left. auto.
Qed.

(** C8.  When a delivery appends a subscription, its [lastPaymentDate]
    is the UTC date of the listener's first reading of the clock and its
    [nextPaymentDate] the UTC date of the second reading plus the job's
    [period] in milliseconds; when the period is a whole number of days
    and both readings fall on one day, the second date is that number of
    days after the first. *)
Theorem subscription_dates
    (queueName : string) (job : Job) (w : World) (sub : Subscription) :
  subscriptions (snd (deliver env queueName job w))
  = subscriptions w ++ [sub] ->
  let today := Date_now env (clockReads w) in
  let now := Date_now env (S (clockReads w)) in
  sub_lastPaymentDate sub = isoDateOfDay (Day today) /\
  sub_nextPaymentDate sub = isoDateOfDay (Day (now + period (job_data job))) /\
  (forall days,
      period (job_data job) = days * msPerDay ->
      Day now = Day today ->
      sub_nextPaymentDate sub = isoDateOfDay (Day today + days)).
Proof.
  intros Hsub today now.
  destruct (processor_run queueName job w) as (evs & Hw1 & _).
  assert (Hdates :
    Some (sub_lastPaymentDate sub) = toISODate today /\
    Some (sub_nextPaymentDate sub) = toISODate (now + period (job_data job))).
  { destruct (fst (processor env queueName job w)) as [wr | e] eqn:Hr.
    - rewrite (deliver_completed queueName job w wr Hr), Hw1 in Hsub.
      simpl in Hsub.
      destruct (onCompleted_run job wr (set_trace w (trace w ++ evs)))
        as (_ & _ & Htables).
      simpl in Htables.
      destruct Htables as [[_ Hs] | (order & sub' & _ & Hs & _ & _ & Hl & Hn)].
      + rewrite Hs in Hsub. now apply app_one_neq in Hsub.
      + rewrite Hs in Hsub. apply app_one_inj in Hsub. subst sub'. auto.
    - rewrite (deliver_failed queueName job w e Hr), Hw1 in Hsub.
      simpl in Hsub. now apply app_one_neq in Hsub. }
  destruct Hdates as [Hl Hn]. unfold toISODate in Hl, Hn.
  destruct (validTime today); [|discriminate].
  destruct (validTime (now + period (job_data job))); [|discriminate].
  injection Hl as Hl. injection Hn as Hn.
  repeat split; auto.
  intros days Hperiod Hday. rewrite Hn, Hperiod, <- Hday.
  unfold Day. rewrite Z.div_add by discriminate. reflexivity.
Qed.

(** ** The charge *)

(** C1.  [processPayment] makes no use of the job id: two jobs with the
    same payload run alike, whatever their ids.  And whenever the
    products of a job exist and the calculator returns a quote, a run
    adds one gateway call, of the customer, amount, currency and payment
    method, to those already made, be the same call among them or not. *)
Theorem charge_call_ignores_job_id (job : Job) (w : World) :
  let data := job_data job in
  (forall job',
      job_data job' = data ->
      processPayment env job' w = processPayment env job w)
  /\
  (forall quote,
      (forall item, In item (orderItems data) ->
         exists product,
           find (fun p => product_id p =? productId item) (products w)
           = Some product) ->
      calculateShippingCost env w (shippingCountry data) "next-day" None
        (orderItems data) = Ok quote ->
      exists amount,
        charges (trace (snd (processPayment env job w)))
        = charges (trace w)
          ++ [PaymentIntentCall (userId data) amount (currency data)
                (paymentMethodId data)]).
Proof.
  intros data. split.
  - intros job' E. unfold processPayment. rewrite E. reflexivity.
  - intros quote Hall Hquote.
    destruct (prices_found _ w Hall) as (prices & Hp & _).
    rewrite (processPayment_priced env job w prices Hp). fold data. simpl.
    rewrite Hquote. eexists.
    destruct (createPaymentIntent env _ _ _ _ _) as [[] | e]; simpl;
      rewrite charges_app; reflexivity.
Qed.

(** The digits of [toFixed(2)] are the hundredths nearest to the
    number. *)
Lemma digits_nearest (m : positive) (e n : Z) :
  nearestHundredths m e n -> toFixed2_digits m e = n.
Proof.
  unfold nearestHundredths, toFixed2_digits.
  destruct (0 <=? e) eqn:He; [intros ->; ring|].
  apply Z.leb_gt in He. intros [Hlow Hhigh].
  replace (- e + 1) with (Z.succ (- e)) by lia.
  rewrite Z.pow_succ_r by lia.
  assert (Hpos : 0 < 2 ^ (- e)) by (apply Z.pow_pos_nonneg; lia).
  symmetry.
  apply (Z.div_unique_pos _ _ n
           (200 * Z.pos m + 2 ^ (- e) - 2 * 2 ^ (- e) * n)); nia.
Qed.

(** C4.  When the products of a job exist and the calculator returns a
    quote, [processPayment] submits one charge to the gateway.  Its
    amount is the rounding to two decimals of [total], the line totals
    (price times quantity, in the order of the items) added up from 0,
    plus the shipping cost: for a finite [total = +-m * 2^e] below 1e21
    whose nearest hundredths [n] stay below 2^53, the amount is
    [+-n / 100]; and a zero total gives 0.  For a single item of
    quantity 2 at price 20 and a shipping cost of 9.99 the amount is
    49.99. *)
Theorem charged_amount (job : Job) (w : World) (quote : ShippingQuote) :
  let data := job_data job in
  (forall item, In item (orderItems data) ->
     exists product,
       find (fun p => product_id p =? productId item) (products w)
       = Some product) ->
  calculateShippingCost env w (shippingCountry data) "next-day" None
    (orderItems data) = Ok quote ->
  exists prices amount,
    Forall2
      (fun item x =>
         exists product,
           find (fun p => product_id p =? productId item) (products w)
           = Some product /\
           x = PrimFloat.mul (price product) (quantity item))
      (orderItems data) prices /\
    charges (trace (snd (processPayment env job w)))
    = charges (trace w)
      ++ [PaymentIntentCall (userId data) amount (currency data)
            (paymentMethodId data)] /\
    let total :=
      PrimFloat.add (fold_left PrimFloat.add prices 0%float) (cost quote) in
    (forall sign m e n,
        Prim2SF total = S754_finite sign m e ->
        PrimFloat.leb 1e21 (PrimFloat.abs total) = false ->
        nearestHundredths m e n ->
        n < 2 ^ 53 ->
        amount
        = let hundredths :=
            PrimFloat.div (PrimFloat.of_uint63 (Uint63.of_Z n)) 100 in
          if sign then PrimFloat.opp hundredths else hundredths) /\
    (forall sign, Prim2SF total = S754_zero sign -> amount = 0%float) /\
    (forall item product,
        orderItems data = [item] ->
        find (fun p => product_id p =? productId item) (products w)
        = Some product ->
        price product = 20%float ->
        quantity item = 2%float ->
        cost quote = 9.99%float ->
        amount = 49.99%float).
Proof.
  intros data Hall Hquote.
  destruct (prices_found _ w Hall) as (prices & Hp & Hrel).
  exists prices,
    (parseFloat_toFixed2
       (PrimFloat.add (fold_left PrimFloat.add prices 0%float) (cost quote))).
  split; [exact Hrel|]. split; [|split; [|split]].
  - rewrite (processPayment_priced env job w prices Hp). fold data. simpl.
    rewrite Hquote.
    destruct (createPaymentIntent env _ _ _ _ _) as [[] | e]; simpl;
      rewrite charges_app; reflexivity.
  - intros sign m e n Hsf Hbig Hn Hsmall.
    unfold parseFloat_toFixed2. rewrite Hsf, Hbig.
    rewrite (digits_nearest m e n Hn).
    replace (n <? 2 ^ 53) with true by (symmetry; apply Z.ltb_lt; exact Hsmall).
    reflexivity.
  - intros sign Hsf. unfold parseFloat_toFixed2. rewrite Hsf. reflexivity.
  - intros item product Hitems Hfind Hprice Hquantity Hcost.
    rewrite Hitems in Hrel. inversion Hrel as [|? x ? rest Hx Hrest]; subst.
    inversion Hrest; subst.
    destruct Hx as (product' & Hfind' & ->).
    rewrite Hfind in Hfind'. injection Hfind' as <-.
    rewrite Hprice, Hquantity, Hcost. vm_compute. reflexivity.
Qed.

End Runs.

(** ** The statements at [Scenario]'s job *)

Import Scenario.

Lemma jobData_products_exist :
  forall item, In item (orderItems jobData) ->
    exists product,
      find (fun p => product_id p =? productId item) (products shop)
      = Some product.
Proof.
  intros item [<- | []]. exists (mkProduct 5 20%float). reflexivity.
Defined.

Lemma jobBasket_products_exist :
  forall item, In item (orderItems (job_data MoreScenarios.jobBasket)) ->
    exists product,
      find (fun p => product_id p =? productId item)
        (products MoreScenarios.shelf) = Some product.
Proof.
  intros item [<- | [<- | []]]; eexists; reflexivity.
Defined.

(** What the statement of C4 gives at [job] in [shop]. *)
Lemma one_item_charge (prices : list number) (amount : number)
    (history : list Event) :
  history = charges (trace shop) ++ [PaymentIntentCall 1 amount "usd" "pm_card"]
  ->
  (forall item product,
      orderItems jobData = [item] ->
      find (fun p => product_id p =? productId item) (products shop)
      = Some product ->
      price product = 20%float ->
      quantity item = 2%float ->
      cost (mkQuote 9.99%float standard) = 9.99%float ->
      amount = 49.99%float) ->
  history = [PaymentIntentCall 1 49.99%float "usd" "pm_card"].
Proof.
  intros -> Hone.
  rewrite (Hone (mkOrderItem 5 2%float) (mkProduct 5 20%float)
             eq_refl eq_refl eq_refl eq_refl eq_refl).
  reflexivity.
Qed.

(** What the statement of C4 gives at [jobBasket] in [shelf]: the line
    totals are 19.995 and 0.30000000000000004, the total is
    30.285000000000004 = 8524469669682218 * 2^-48, and its nearest
    hundredths are 3029. *)
Lemma basket_charge (prices : list number) (amount : number)
    (history : list Event) :
  Forall2
    (fun item x =>
       exists product,
         find (fun p => product_id p =? productId item)
           (products MoreScenarios.shelf) = Some product /\
         x = PrimFloat.mul (price product) (quantity item))
    (orderItems (job_data MoreScenarios.jobBasket)) prices ->
  history
  = charges (trace MoreScenarios.shelf)
    ++ [PaymentIntentCall 1 amount "usd" "pm_card"] ->
  (let total :=
     PrimFloat.add (fold_left PrimFloat.add prices 0%float)
       (cost (mkQuote 9.99%float standard)) in
   forall sign m e n,
     Prim2SF total = S754_finite sign m e ->
     PrimFloat.leb 1e21 (PrimFloat.abs total) = false ->
     nearestHundredths m e n ->
     n < 2 ^ 53 ->
     amount
     = let hundredths :=
         PrimFloat.div (PrimFloat.of_uint63 (Uint63.of_Z n)) 100 in
       if sign then PrimFloat.opp hundredths else hundredths) ->
  history = [PaymentIntentCall 1 30.29%float "usd" "pm_card"].
Proof.
  intros Hrel -> Hround.
  inversion Hrel as [|? x ? rest Hx Hrest]; subst.
  inversion Hrest as [|? y ? rest' Hy Hrest']; subst.
  inversion Hrest'; subst.
  destruct Hx as (p1 & Hf1 & ->). destruct Hy as (p2 & Hf2 & ->).
  injection Hf1 as <-. injection Hf2 as <-.
  rewrite (Hround false 8524469669682218%positive (-48) 3029
             eq_refl eq_refl);
    [reflexivity | unfold nearestHundredths; simpl; lia | lia].
Qed.

(** C4 at [job] in [shop]: 2 x 20.00 + 9.99 is charged as 49.99; and at
    [jobBasket] in [shelf]: 19.995 + 3 x 0.1 + 9.99, a total of
    30.285000000000004, is charged as 30.29. *)
Lemma charged_amount_witness :
  charges (trace (snd (processPayment services job shop)))
  = [PaymentIntentCall 1 49.99%float "usd" "pm_card"] /\
  charges (trace (snd (processPayment services MoreScenarios.jobBasket
                         MoreScenarios.shelf)))
  = [PaymentIntentCall 1 30.29%float "usd" "pm_card"].
Proof.
  split.
  - destruct (charged_amount services job shop (mkQuote 9.99%float standard)
                jobData_products_exist eq_refl)
      as (prices & amount & _ & Hcharge & _ & _ & Hone).
    exact (one_item_charge prices amount _ Hcharge Hone).
  - destruct (charged_amount services MoreScenarios.jobBasket
                MoreScenarios.shelf (mkQuote 9.99%float standard)
                jobBasket_products_exist eq_refl)
      as (prices & amount & Hrel & Hcharge & Hround & _).
    exact (basket_charge prices amount _ Hrel Hcharge Hround).
Defined.

Example job_charged_49_99 :
  charges (trace (snd (processPayment services job shop)))
  = [PaymentIntentCall 1 49.99%float "usd" "pm_card"].
Proof. vm_compute. reflexivity. Qed.

(** C1, refuted at [job]: delivered twice, the job is charged twice, by
    two equal calls; and [job'], which differs from [job] in its id only,
    is processed exactly as [job] is, so the call carries no key made of
    the id. *)
Lemma same_job_charged_twice :
  let w1 := snd (deliver services "billing" job shop) in
  let w2 := snd (deliver services "billing" job w1) in
  charges (trace w2)
  = [PaymentIntentCall 1 49.99%float "usd" "pm_card";
     PaymentIntentCall 1 49.99%float "usd" "pm_card"] /\
  job_id job' <> job_id job /\
  processPayment services job' shop = processPayment services job shop.
Proof.
  split; [vm_compute; reflexivity|].
  split; [discriminate | reflexivity].
Qed.

(** C3 at [job] in [shop]: the database refuses the order and the
    rollback resolves; the commit fails and the rollback rejects; the
    transaction cannot be opened. *)
Lemma persistence_failure_after_charge_witness :
  (let run := deliver servicesOrderRefused "billing" job shop in
   fst run = completed standard /\
   orders (snd run) = [] /\
   subscriptions (snd run) = [] /\
   fst (onCompleted servicesOrderRefused job standard
          (snd (processor servicesOrderRefused "billing" job shop)))
   = Ok tt /\
   staged (snd run) = [] /\
   trace (snd run)
   = [ShippingCostCall "US" "next-day" None [mkOrderItem 5 2%float];
      PaymentIntentCall 1 49.99%float "usd" "pm_card";
      ConsoleLog "Payment intent created successfully!";
      ConsoleLog "Job: 1 has completed";
      TransactionBegin;
      CreateOrderCall 1 [mkOrderItem 5 2%float] "card" "US" standard
        "next-day"]
     ++ [TransactionRollback;
         ConsoleError (Some "Error from worker's complete event: "%string)
           (OtherError "SequelizeDatabaseError")])
  /\
  (let run := deliver MoreScenarios.servicesCommitFails "billing" job shop in
   orders (snd run) = [] /\
   subscriptions (snd run) = [] /\
   fst (onCompleted MoreScenarios.servicesCommitFails job standard
          (snd (processor MoreScenarios.servicesCommitFails "billing" job
                  shop)))
   = Err (PlainError
            "Transaction cannot be rolled back because it has been finished with state: commit")
   /\
   trace (snd run)
   = [ShippingCostCall "US" "next-day" None [mkOrderItem 5 2%float];
      PaymentIntentCall 1 49.99%float "usd" "pm_card";
      ConsoleLog "Payment intent created successfully!";
      ConsoleLog "Job: 1 has completed";
      TransactionBegin;
      CreateOrderCall 1 [mkOrderItem 5 2%float] "card" "US" standard
        "next-day";
      SubscriptionCreateCall
        (mkSubscription 1 1 "2024-01-01" "2025-01-01" "2024-01-01"
           "2024-01-31");
      TransactionCommit]
     ++ [TransactionRollback])
  /\
  (let run := deliver MoreScenarios.servicesNoTransaction "billing" job shop in
   fst (onCompleted MoreScenarios.servicesNoTransaction job standard
          (snd (processor MoreScenarios.servicesNoTransaction "billing" job
                  shop)))
   = Err (OtherError "SequelizeConnectionError") /\
   orders (snd run) = [] /\
   subscriptions (snd run) = []).
Proof.
  split; [|split].
  - set (env := servicesOrderRefused).
    set (w1 := snd (processor env "billing" job shop)).
    set (w2 := snd (prologue env job w1)).
    set (w3 := snd (persist env job standard "2024-01-01" "2024-01-31" w2)).
    destruct (persistence_failure_after_charge env "billing" job shop w1
                standard eq_refl) as (Hdone & _ & Htry).
    destruct (Htry "2024-01-01"%string "2024-01-31"%string w2
                (OtherError "SequelizeDatabaseError") w3 eq_refl eq_refl)
      as (Ho & Hs & Hresolved & _).
    destruct (Hresolved eq_refl) as (Hr & Hstaged & Htrace).
    exact (conj Hdone (conj Ho (conj Hs (conj Hr (conj Hstaged Htrace))))).
  - set (env := MoreScenarios.servicesCommitFails).
    set (w1 := snd (processor env "billing" job shop)).
    set (w2 := snd (prologue env job w1)).
    set (w3 := snd (persist env job standard "2024-01-01" "2024-01-31" w2)).
    destruct (persistence_failure_after_charge env "billing" job shop w1
                standard eq_refl) as (_ & _ & Htry).
    destruct (Htry "2024-01-01"%string "2024-01-31"%string w2
                (OtherError "SequelizeDatabaseError") w3 eq_refl eq_refl)
      as (Ho & Hs & _ & Hrejected).
    destruct (Hrejected
                (PlainError
                   "Transaction cannot be rolled back because it has been finished with state: commit")
                eq_refl) as (Hr & Htrace).
    exact (conj Ho (conj Hs (conj Hr Htrace))).
  - set (env := MoreScenarios.servicesNoTransaction).
    set (w1 := snd (processor env "billing" job shop)).
    destruct (persistence_failure_after_charge env "billing" job shop w1
                standard eq_refl) as (_ & Hpro & _).
    destruct (Hpro (OtherError "SequelizeConnectionError")
                (snd (prologue env job w1)) eq_refl)
      as (Hr & Ho & Hs & _).
    exact (conj Hr (conj Ho Hs)).
Defined.

(** C3, refuted at [job] in [shop] with the database refusing the order:
    the customer is charged and nothing is persisted, yet the job is
    completed, not failed, and the delivery ends with the line on
    [console.error]. *)
Lemma persistence_failure_leaves_job_completed :
  let run := deliver servicesOrderRefused "billing" job shop in
  charges (trace (snd run))
  = [PaymentIntentCall 1 49.99%float "usd" "pm_card"] /\
  orders (snd run) = [] /\
  subscriptions (snd run) = [] /\
  fst run = completed standard /\
  (forall reason, fst run <> failed reason) /\
  trace (snd run)
  = [ShippingCostCall "US" "next-day" None [mkOrderItem 5 2%float];
     PaymentIntentCall 1 49.99%float "usd" "pm_card";
     ConsoleLog "Payment intent created successfully!";
     ConsoleLog "Job: 1 has completed";
     TransactionBegin;
     CreateOrderCall 1 [mkOrderItem 5 2%float] "card" "US" standard "next-day";
     TransactionRollback;
     ConsoleError (Some "Error from worker's complete event: "%string)
       (OtherError "SequelizeDatabaseError")].
Proof.
  repeat split; try (vm_compute; reflexivity).
  intros reason. vm_compute. discriminate.
Qed.

Lemma jobData_product_missing :
  exists item,
    In item (orderItems (job_data job)) /\
    find (fun p => product_id p =? productId item) (products emptyShop) = None.
Proof.
  exists (mkOrderItem 5 2%float). split; [now left | reflexivity].
Defined.

(** C5 at [job] in [emptyShop]. *)
Lemma missing_product_fails_job_witness :
  let reason :=
    (dquote ++ "billing" ++ dquote ++ " worker couldn't process it.")%string in
  let w' := snd (deliver services "billing" job emptyShop) in
  processPayment services job emptyShop
  = (Err ProductNotFoundError, emptyShop) /\
  fst (deliver services "billing" job emptyShop) = failed (PlainError reason) /\
  trace w'
  = trace emptyShop
    ++ [ConsoleError None ProductNotFoundError;
        ConsoleLog ("Job" ++ (" with id " ++ dquote ++ job_id job ++ dquote)
                    ++ " has failed because " ++ reason)] /\
  charges (trace w') = charges (trace emptyShop) /\
  orders w' = orders emptyShop /\
  subscriptions w' = subscriptions emptyShop.
Proof.
  exact (missing_product_fails_job services "billing" job emptyShop
           jobData_product_missing).
Defined.

(** C5, refuted at [job] in [emptyShop]: product 5 is missing, and the
    job fails with the processor's [Error], not with
    [ProductNotFoundError]. *)
Lemma missing_product_reason_is_generic :
  find (fun p => product_id p =? 5) (products emptyShop) = None /\
  fst (deliver services "billing" job emptyShop)
  = failed (PlainError
              (dquote ++ "billing" ++ dquote
               ++ " worker couldn't process it.")) /\
  fst (deliver services "billing" job emptyShop)
  <> failed ProductNotFoundError.
Proof.
  split; [reflexivity|]. split; [reflexivity|].
  vm_compute. discriminate.
Qed.

(** C7, refuted at [job] in [shop]: the payload says "standard", and the
    calculator and the order service are both called with "next-day". *)
Lemma payload_shipping_method_ignored :
  let run := deliver services "billing" job shop in
  shippingMethod (job_data job) = "standard"%string /\
  In (ShippingCostCall "US" "next-day" None (orderItems jobData))
     (trace (snd run)) /\
  In (CreateOrderCall 1 (orderItems jobData) "card" "US" standard "next-day")
     (trace (snd run)) /\
  ~ Forall (shipsBy "US" (shippingMethod (job_data job))) (trace (snd run)).
Proof.
  split; [reflexivity|].
  split; [vm_compute; auto|].
  split; [vm_compute; intuition|].
  intros H. apply Forall_inv in H. destruct H as [_ H]. discriminate H.
Qed.

(** C8 at [job] in [shop]: paid on 2024-01-01, due again 30 days on. *)
Lemma subscription_dates_witness :
  let sub := mkSubscription 1 1 "2024-01-01" "2025-01-01"
               "2024-01-01" "2024-01-31" in
  let today := Date_now services (clockReads shop) in
  let now := Date_now services (S (clockReads shop)) in
  subscriptions (snd (deliver services "billing" job shop))
  = subscriptions shop ++ [sub] /\
  sub_lastPaymentDate sub = isoDateOfDay (Day today) /\
  sub_nextPaymentDate sub = isoDateOfDay (Day (now + period (job_data job))) /\
  (forall days,
      period (job_data job) = days * msPerDay ->
      Day now = Day today ->
      sub_nextPaymentDate sub = isoDateOfDay (Day today + days)).
Proof.
  intros sub today now. split; [vm_compute; reflexivity|].
  exact (subscription_dates services "billing" job shop sub eq_refl).
Defined.

(** C8, refuted at [job] in [shop] with the clock of
    [servicesAtMidnight]: the first reading falls on 2024-01-01 and the
    second on 2024-01-02, so a period of 30 days gives a
    [nextPaymentDate] of 2024-02-01, which is not the [lastPaymentDate],
    2024-01-01, plus 30 days. *)
Lemma next_payment_date_across_midnight :
  let run := deliver MoreScenarios.servicesAtMidnight "billing" job shop in
  subscriptions (snd run)
  = [mkSubscription 1 1 "2024-01-01" "2025-01-01"
       "2024-01-01" "2024-02-01"] /\
  period (job_data job) = 30 * msPerDay /\
  isoDateOfDay (Day (Date_now MoreScenarios.servicesAtMidnight 0))
  = "2024-01-01"%string /\
  isoDateOfDay (Day (Date_now MoreScenarios.servicesAtMidnight 0) + 30)
  = "2024-01-31"%string /\
  "2024-02-01"%string <> "2024-01-31"%string.
Proof.
  repeat split; try (vm_compute; reflexivity). discriminate.
Qed.


End WorkerProperties.

(* ================================================================== *)
(** * Further properties of the cart service *)
(* ================================================================== *)

Module CartInvariants.

Import CartService CartState CartProperties.

(** ** Lists of rows *)

Lemma filter_filter_implied {A : Type} (f g : A -> bool) (l : list A) :
  (forall x, f x = true -> g x = true) ->
  filter f (filter g l) = filter f l.
Proof.
  intros H. induction l as [|a l IH]; simpl; [reflexivity|].
  destruct (g a) eqn:G; simpl.
  - rewrite IH. reflexivity.
  - destruct (f a) eqn:F; [|exact IH].
    rewrite (H a F) in G. discriminate.
Qed.

Lemma NoDup_map_filter {A B : Type} (k : A -> B) (g : A -> bool)
    (l : list A) :
  NoDup (map k l) -> NoDup (map k (filter g l)).
Proof.
  induction l as [|a l IH]; simpl; intros H; [exact H|].
  inversion H as [|? ? Hnot Hrest]; subst.
  destruct (g a); simpl; [|auto].
  constructor; [|auto].
  intros Hin. apply Hnot. apply in_map_iff in Hin.
  destruct Hin as (x & Hx & Hin). apply filter_In in Hin.
  apply in_map_iff. exists x. tauto.
Qed.

Lemma Forall_filter_keeps {A : Type} (P : A -> Prop) (g : A -> bool)
    (l : list A) :
  Forall P l -> Forall P (filter g l).
Proof.
  rewrite !Forall_forall. intros H x Hx. apply filter_In in Hx.
  apply H. tauto.
Qed.

(** Writing an instance back leaves the keys of the table as they are. *)
Lemma save_keys (it : CartItem) (rows : list CartItem) :
  map item_id (map (fun r => if item_id r =? item_id it then it else r) rows)
  = map item_id rows.
Proof.
  rewrite map_map. apply map_ext. intros r.
  destruct (item_id r =? item_id it) eqn:E; [|reflexivity].
  apply Z.eqb_eq in E. auto.
Qed.

(** ** What one removal does *)

(** With unique keys and a cart, a removal either finds no row and fails,
    or takes the first row of the cart for the product and rewrites it
    with one unit less, or deletes it, in place. *)
Lemma removeItemFromCart_cases
    (customerId productId : Z) (s : Store) (cart : Cart) :
  keys_unique s ->
  Cart_findOne customerId s = Some cart ->
  (CartItem_findOne (cart_id cart) productId s = None /\
   removeItemFromCart customerId productId s
   = (Err (CartItemNotFoundError None), s))
  \/
  (exists item before after,
      CartItem_findOne (cart_id cart) productId s = Some item /\
      item_cartId item = cart_id cart /\
      item_productId item = productId /\
      cartItems s = before ++ item :: after /\
      (forall r, In r before ->
         (item_cartId r =? cart_id cart) && (item_productId r =? productId)
         = false) /\
      removeItemFromCart customerId productId s
      = (Ok true,
         set_cartItems s
           (before
            ++ (if 1 <? item_quantity item
                then [set_quantity item (item_quantity item - 1)]
                else [])
            ++ after))).
Proof.
  intros U Hcart. unfold keys_unique in U.
  unfold removeItemFromCart. rewrite Hcart.
  destruct (CartItem_findOne (cart_id cart) productId s) as [item|] eqn:Hfind;
    [right | left; auto].
  destruct (find_split _ _ _ Hfind) as (before & after & E & Hm & Hb).
  apply andb_prop in Hm. destruct Hm as [Hc Hp].
  apply Z.eqb_eq in Hc, Hp.
  exists item, before, after. repeat split; auto.
  rewrite E in U.
  destruct (1 <? item_quantity item).
  - unfold save. rewrite E.
    rewrite (save_one before after item U); reflexivity.
  - unfold save, destroy, set_cartItems. simpl. rewrite E.
    rewrite (destroy_one before after item U).
    rewrite (save_gone before after item U). reflexivity.
Qed.

(** ** Reading a cart *)

(** X1.  For a customer with a cart, [getCartItems] never fails with
    [CartNotFoundError]; what it returns is not empty and holds exactly
    the rows of that cart; and a cart without rows makes it fail with
    [CartItemNotFoundError] and the message "Cart items not found". *)
Theorem getCartItems_own_rows (customerId : Z) (s : Store) (cart : Cart) :
  Cart_findOne customerId s = Some cart ->
  getCartItems customerId s <> Err CartNotFoundError /\
  (forall items,
      getCartItems customerId s = Ok items ->
      items <> [] /\
      forall it,
        In it items <->
        In it (cartItems s) /\ item_cartId it = cart_id cart) /\
  ((forall it, In it (cartItems s) -> item_cartId it <> cart_id cart) <->
   getCartItems customerId s
   = Err (CartItemNotFoundError (Some "Cart items not found"%string))).
Proof.
  intros Hcart. unfold getCartItems, CartItem_findAll. rewrite Hcart.
  destruct (filter (fun it => item_cartId it =? cart_id cart) (cartItems s))
    as [|r rows] eqn:E.
  - split; [discriminate|]. split; [discriminate|]. split; [reflexivity|].
    intros _ it Hin Hc.
    assert (Hit : In it (filter (fun it => item_cartId it =? cart_id cart)
                           (cartItems s))).
    { apply filter_In. split; [exact Hin | now apply Z.eqb_eq]. }
    rewrite E in Hit. destruct Hit.
  - split; [discriminate|]. split.
    + intros items [= <-]. split; [discriminate|].
      intros it. rewrite <- E, filter_In, Z.eqb_eq. reflexivity.
    + split; [|discriminate]. intros Hnone. exfalso.
      assert (Hr : In r (filter (fun it => item_cartId it =? cart_id cart)
                           (cartItems s))) by (rewrite E; now left).
      apply filter_In in Hr. destruct Hr as [Hin Hc].
      apply Z.eqb_eq in Hc. exact (Hnone r Hin Hc).
Qed.

Lemma getCartItems_own_rows_witness :
  Cart_findOne 1 Scenario.filledCart = Some (mkCart 1 1) /\
  getCartItems 1 Scenario.filledCart
  = Ok [mkCartItem 1 1 5 3; mkCartItem 2 1 7 1] /\
  getCartItems 1 Scenario.filledCart <> Err CartNotFoundError.
Proof.
  split; [reflexivity|]. split; [reflexivity|].
  exact (proj1 (getCartItems_own_rows 1 Scenario.filledCart (mkCart 1 1)
                  eq_refl)).
Defined.

(** ** Clearing a cart *)

(** X2.  For a customer with a cart, [clearCart] succeeds, leaves the
    [Cart] table and the rows of every other cart as they are, and
    empties the cart: [getCartItems] then fails with
    [CartItemNotFoundError]. *)
Theorem clearCart_empties_own_cart (customerId : Z) (s : Store) (cart : Cart) :
  Cart_findOne customerId s = Some cart ->
  let s' := snd (clearCart customerId s) in
  fst (clearCart customerId s) = Ok tt /\
  carts s' = carts s /\
  CartItem_findAll (cart_id cart) s' = [] /\
  getCartItems customerId s'
  = Err (CartItemNotFoundError (Some "Cart items not found"%string)) /\
  (forall other, other <> cart_id cart ->
     CartItem_findAll other s' = CartItem_findAll other s).
Proof.
  intros Hcart. unfold clearCart. rewrite Hcart. simpl.
  assert (Hgone :
    filter (fun it => item_cartId it =? cart_id cart)
      (filter (fun r => negb (item_cartId r =? cart_id cart)) (cartItems s))
    = []).
  { induction (cartItems s) as [|a l IH]; simpl; [reflexivity|].
    destruct (item_cartId a =? cart_id cart) eqn:E; simpl; [exact IH|].
    rewrite E. exact IH. }
  repeat split; auto.
  - unfold getCartItems, Cart_findOne in *. simpl. rewrite Hcart.
    unfold CartItem_findAll. simpl. rewrite Hgone. reflexivity.
  - intros other Hother. unfold CartItem_findAll. simpl.
    apply filter_filter_implied. intros x Hx.
    apply Z.eqb_eq in Hx. apply negb_true_iff, Z.eqb_neq. congruence.
Qed.

Lemma clearCart_empties_own_cart_witness :
  Cart_findOne 1 Scenario.twoCarts = Some (mkCart 1 1) /\
  cartItems (snd (clearCart 1 Scenario.twoCarts)) = [] /\
  fst (clearCart 1 Scenario.twoCarts) = Ok tt.
Proof.
  split; [reflexivity|]. split; [reflexivity|].
  exact (proj1 (clearCart_empties_own_cart 1 Scenario.twoCarts (mkCart 1 1)
                  eq_refl)).
Defined.


(** ** Invariants of the store *)

Lemma addItemToCart_cases
    (customerId productId quantity : Z) (s : Store) (cart : Cart) :
  Cart_findOne customerId s = Some cart ->
  (exists item,
      find (fun r => item_productId r =? productId) (cartItems s) = Some item /\
      In item (cartItems s) /\
      addItemToCart customerId productId (Some quantity) s
      = (Ok true,
         set_cartItems s
           (map (fun r =>
                   if item_id r =? item_id item
                   then set_quantity item (item_quantity item + quantity)
                   else r)
                (cartItems s))))
  \/
  ((forall r, In r (cartItems s) -> item_productId r <> productId) /\
   addItemToCart customerId productId (Some quantity) s
   = (Ok true,
      {| carts := carts s;
         cartItems :=
           cartItems s
           ++ [mkCartItem (nextItemId s) (cart_id cart) productId quantity];
         nextItemId := nextItemId s + 1 |})).
Proof.
  intros Hcart. unfold addItemToCart, CartItem_findOrCreate. rewrite Hcart.
  destruct (find (fun r => item_productId r =? productId) (cartItems s))
    as [item|] eqn:E.
  - left. exists item. split; [reflexivity|]. split; [|reflexivity].
    apply find_some in E. tauto.
  - right. split; [|reflexivity]. intros r Hr.
    apply Z.eqb_neq. exact (find_none _ _ E r Hr).
Qed.

(** X3.  Unique keys below the auto-increment counter are an invariant of
    the service: [addItemToCart], [removeItemFromCart] and [clearCart]
    each take a well-formed store to a well-formed store, whoever calls
    them and whether they succeed or fail. *)
Theorem wellFormed_preserved
    (customerId productId : Z) (quantity : option Z) (s : Store) :
  wellFormed s ->
  wellFormed (snd (addItemToCart customerId productId quantity s)) /\
  wellFormed (snd (removeItemFromCart customerId productId s)) /\
  wellFormed (snd (clearCart customerId s)).
Proof.
  intros [U B]. unfold keys_unique in U. split; [|split].
  - destruct (Cart_findOne customerId s) as [cart|] eqn:Hcart.
    + assert (Hq : exists q,
                addItemToCart customerId productId quantity s
                = addItemToCart customerId productId (Some q) s).
      { destruct quantity as [q|]; [exists q | exists 1]; reflexivity. }
      destruct Hq as (q & ->).
      destruct (addItemToCart_cases customerId productId q s cart Hcart)
        as [(item & _ & Hin & ->) | (_ & ->)]; simpl.
      * split.
        -- unfold keys_unique. simpl.
           rewrite (save_keys (set_quantity item (item_quantity item + q))).
           exact U.
        -- simpl. apply Forall_forall. intros r Hr.
           apply in_map_iff in Hr. destruct Hr as (r0 & <- & Hr0).
           rewrite Forall_forall in B.
           destruct (item_id r0 =? item_id item); simpl; auto.
      * split.
        -- unfold keys_unique. simpl. rewrite map_app. simpl.
           apply NoDup_app; [exact U | repeat constructor; auto |].
           intros k Hk [<- | []]. apply in_map_iff in Hk.
           destruct Hk as (r & Hid & Hr). rewrite Forall_forall in B.
           specialize (B r Hr). lia.
        -- simpl. apply Forall_app. split.
           ++ eapply Forall_impl; [|exact B]. simpl. intros; lia.
           ++ repeat constructor. simpl. lia.
    + unfold addItemToCart. rewrite Hcart. simpl. split; assumption.
  - destruct (Cart_findOne customerId s) as [cart|] eqn:Hcart.
    + destruct (removeItemFromCart_cases customerId productId s cart U Hcart)
        as [(_ & ->) | (item & before & after & _ & _ & _ & E & _ & ->)];
        simpl; [split; assumption|].
      rewrite E in U, B. split.
      * unfold keys_unique. simpl. rewrite !map_app in *. simpl in U.
        destruct (1 <? item_quantity item); simpl; [exact U|].
        eapply NoDup_remove_1. exact U.
      * simpl. apply Forall_app in B. destruct B as [Bb Ba].
        inversion Ba as [|? ? Hi Ha]; subst.
        apply Forall_app. split; [exact Bb|]. apply Forall_app. split; auto.
        destruct (1 <? item_quantity item); repeat constructor; auto.
    + unfold removeItemFromCart. rewrite Hcart. simpl. split; assumption.
  - unfold clearCart. destruct (Cart_findOne customerId s) as [cart|];
      simpl; [|split; assumption].
    split.
    + unfold keys_unique. simpl. now apply NoDup_map_filter.
    + simpl. now apply Forall_filter_keeps.
Qed.

Lemma twoCarts_wellFormed : wellFormed Scenario.twoCarts.
Proof.
  split.
  - unfold keys_unique. simpl. apply NoDup_cons; [simpl; tauto | apply NoDup_nil].
  - simpl. apply Forall_cons; [simpl; lia | apply Forall_nil].
Defined.

Lemma wellFormed_preserved_witness :
  wellFormed Scenario.twoCarts /\
  wellFormed (snd (addItemToCart 2 5 (Some 2) Scenario.twoCarts)) /\
  wellFormed (snd (removeItemFromCart 2 5 Scenario.twoCarts)) /\
  wellFormed (snd (clearCart 2 Scenario.twoCarts)).
Proof.
  split; [exact twoCarts_wellFormed|].
  exact (wellFormed_preserved 2 5 (Some 2) Scenario.twoCarts
           twoCarts_wellFormed).
Defined.


(** X4.  With unique keys, [removeItemFromCart] stays within the
    caller's cart and the product named: the rows of other carts and of
    other products, the [Cart] table and the auto-increment counter are
    as they were, whatever the outcome. *)
Theorem removeItemFromCart_scope
    (customerId productId : Z) (s : Store) (cart : Cart) :
  keys_unique s ->
  Cart_findOne customerId s = Some cart ->
  let s' := snd (removeItemFromCart customerId productId s) in
  elsewhere (cart_id cart) productId s' = elsewhere (cart_id cart) productId s
  /\ carts s' = carts s
  /\ nextItemId s' = nextItemId s.
Proof.
  intros U Hcart.
  destruct (removeItemFromCart_cases customerId productId s cart U Hcart)
    as [(_ & ->) | (item & before & after & _ & Hc & Hp & E & _ & ->)];
    simpl; [auto|].
  repeat split. unfold elsewhere. simpl. rewrite E, !filter_app. simpl.
  rewrite Hc, Hp, !Z.eqb_refl. simpl. f_equal.
  destruct (1 <? item_quantity item); simpl; [|reflexivity].
  rewrite Hc, Hp, !Z.eqb_refl. reflexivity.
Qed.

Lemma removeItemFromCart_scope_witness :
  keys_unique Scenario.filledCart /\
  elsewhere 1 7 (snd (removeItemFromCart 1 7 Scenario.filledCart))
  = [mkCartItem 1 1 5 3].
Proof.
  split; [exact filledCart_keys_unique|].
  exact (proj1 (removeItemFromCart_scope 1 7 Scenario.filledCart (mkCart 1 1)
                  filledCart_keys_unique eq_refl)).
Defined.

(** X5.  "Every line item holds at least one unit" is kept: by
    [removeItemFromCart] in a store with unique keys, since a row at one
    unit is deleted rather than decremented; and by [addItemToCart]
    whenever the quantity added is at least 1 (or left to its default). *)
Theorem quantities_stay_positive
    (customerId productId : Z) (quantity : option Z) (s : Store) :
  keys_unique s ->
  quantitiesPositive s ->
  quantitiesPositive (snd (removeItemFromCart customerId productId s)) /\
  ((forall q, quantity = Some q -> 1 <= q) ->
   quantitiesPositive (snd (addItemToCart customerId productId quantity s))).
Proof.
  intros U P. unfold quantitiesPositive in *. split.
  - destruct (Cart_findOne customerId s) as [cart|] eqn:Hcart.
    + destruct (removeItemFromCart_cases customerId productId s cart U Hcart)
        as [(_ & ->) | (item & before & after & _ & _ & _ & E & _ & ->)];
        simpl; [exact P|].
      rewrite E in P. apply Forall_app in P. destruct P as [Pb Pa].
      inversion Pa as [|? ? Pi Pa']; subst.
      apply Forall_app. split; [exact Pb|]. apply Forall_app. split; auto.
      destruct (1 <? item_quantity item) eqn:Hq; repeat constructor.
      simpl. apply Z.ltb_lt in Hq. lia.
    + unfold removeItemFromCart. rewrite Hcart. exact P.
  - intros Hq.
    destruct (Cart_findOne customerId s) as [cart|] eqn:Hcart.
    + assert (Hq' : exists q, 1 <= q /\
                addItemToCart customerId productId quantity s
                = addItemToCart customerId productId (Some q) s).
      { destruct quantity as [q|]; [exists q | exists 1]; split;
          auto; lia. }
      destruct Hq' as (q & Hq1 & ->).
      destruct (addItemToCart_cases customerId productId q s cart Hcart)
        as [(item & _ & Hin & ->) | (_ & ->)]; simpl.
      * apply Forall_forall. intros r Hr.
        apply in_map_iff in Hr. destruct Hr as (r0 & <- & Hr0).
        rewrite Forall_forall in P.
        destruct (item_id r0 =? item_id item); simpl; auto.
        specialize (P item Hin). lia.
      * apply Forall_app. split; [exact P|]. repeat constructor. simpl. lia.
    + unfold addItemToCart. rewrite Hcart. exact P.
Qed.

Lemma filledCart_quantitiesPositive : quantitiesPositive Scenario.filledCart.
Proof.
  unfold quantitiesPositive. simpl.
  apply Forall_cons; [simpl; lia|].
  apply Forall_cons; [simpl; lia | apply Forall_nil].
Defined.

Lemma quantities_stay_positive_witness :
  keys_unique Scenario.filledCart /\
  quantitiesPositive Scenario.filledCart /\
  quantitiesPositive (snd (removeItemFromCart 1 7 Scenario.filledCart)).
Proof.
  split; [exact filledCart_keys_unique|].
  split; [exact filledCart_quantitiesPositive|].
  exact (proj1 (quantities_stay_positive 1 7 None Scenario.filledCart
                  filledCart_keys_unique filledCart_quantitiesPositive)).
Defined.

(** ** Adding and removing *)

Lemma last_row_split {A B : Type} (k : A -> B) (l before after : list A)
    (x : A) :
  NoDup (map k (l ++ [x])) ->
  l ++ [x] = before ++ x :: after ->
  before = l /\ after = [].
Proof.
  intros U E. destruct after as [|a after'].
  - apply app_inj_tail in E. destruct E as [-> _]. auto.
  - exfalso.
    assert (Hne : a :: after' <> []) by discriminate.
    pose proof (app_removelast_last a Hne) as Hlast.
    set (z := last (a :: after') a) in Hlast.
    assert (Hz : z = x).
    { rewrite Hlast in E.
      replace (before ++ x :: removelast (a :: after') ++ [z])
        with ((before ++ x :: removelast (a :: after')) ++ [z]) in E
        by (rewrite <- app_assoc; reflexivity).
      apply app_inj_tail in E. destruct E as [_ Ez]. auto. }
    assert (Hin : In x (a :: after')).
    { rewrite Hlast, Hz. apply in_or_app. right. now left. }
    rewrite E, map_app in U. simpl in U.
    apply NoDup_remove_2 in U. apply U. apply in_or_app. right.
    exact (in_map k (a :: after') x Hin).
Qed.

(** X6.  In a well-formed store where no cart holds the product, adding
    it with the default quantity and removing it again gives back the
    rows there were; only the auto-increment counter has moved on. *)
Theorem add_then_remove
    (customerId productId : Z) (s : Store) (cart : Cart) :
  wellFormed s ->
  Cart_findOne customerId s = Some cart ->
  (forall r, In r (cartItems s) -> item_productId r <> productId) ->
  let s1 := snd (addItemToCart customerId productId None s) in
  cartItems s1
  = cartItems s ++ [mkCartItem (nextItemId s) (cart_id cart) productId 1] /\
  removeItemFromCart customerId productId s1
  = (Ok true,
     {| carts := carts s; cartItems := cartItems s;
        nextItemId := nextItemId s + 1 |}).
Proof.
  intros [U B] Hcart Hfresh.
  destruct (addItemToCart_cases customerId productId 1 s cart Hcart)
    as [(item & Hfind & Hin & _) | (_ & Hadd)].
  { exfalso. apply find_some in Hfind. destruct Hfind as [_ Hp].
    apply Z.eqb_eq in Hp. exact (Hfresh item Hin Hp). }
  change (addItemToCart customerId productId None s)
    with (addItemToCart customerId productId (Some 1) s).
  rewrite Hadd. simpl. split; [reflexivity|].
  set (row := mkCartItem (nextItemId s) (cart_id cart) productId 1).
  set (s1 := {| carts := carts s; cartItems := cartItems s ++ [row];
                nextItemId := nextItemId s + 1 |}).
  assert (U1 : keys_unique s1).
  { unfold keys_unique. simpl. rewrite map_app. simpl.
    apply NoDup_app; [exact U | repeat constructor; auto |].
    intros k Hk [<- | []]. apply in_map_iff in Hk.
    destruct Hk as (r & Hid & Hr). rewrite Forall_forall in B.
    specialize (B r Hr). lia. }
  assert (Hcart1 : Cart_findOne customerId s1 = Some cart) by exact Hcart.
  destruct (removeItemFromCart_cases customerId productId s1 cart U1 Hcart1)
    as [(Hnone & _) | (item & before & after & Hfind & _ & _ & E & _ & ->)].
  - exfalso. unfold CartItem_findOne in Hnone.
    pose proof (find_none _ _ Hnone row) as Hrow. simpl in Hrow.
    rewrite !Z.eqb_refl in Hrow. simpl in Hrow.
    assert (In row (cartItems s ++ [row])) by (apply in_or_app; right; now left).
    specialize (Hrow H). discriminate.
  - assert (Hitem : item = row).
    { unfold CartItem_findOne in Hfind. apply find_some in Hfind.
      destruct Hfind as [Hin Hm]. simpl in Hin.
      apply in_app_or in Hin. destruct Hin as [Hin | [<- | []]]; auto.
      exfalso. apply andb_prop in Hm. destruct Hm as [_ Hp].
      apply Z.eqb_eq in Hp. exact (Hfresh item Hin Hp). }
    subst item. simpl in E.
    assert (Hsplit : before = cartItems s /\ after = []).
    { exact (last_row_split item_id (cartItems s) before after row U1 E). }
    destruct Hsplit as [-> ->]. simpl. rewrite app_nil_r. reflexivity.
Qed.


Lemma oneCart_wellFormed : wellFormed Scenario.oneCart.
Proof.
  split; [apply NoDup_nil | apply Forall_nil].
Defined.

Lemma add_then_remove_witness :
  wellFormed Scenario.oneCart /\
  Cart_findOne 2 Scenario.oneCart = Some (mkCart 2 2) /\
  removeItemFromCart 2 5 (snd (addItemToCart 2 5 None Scenario.oneCart))
  = (Ok true, {| carts := [mkCart 2 2]; cartItems := []; nextItemId := 2 |}).
Proof.
  split; [exact oneCart_wellFormed|]. split; [reflexivity|].
  exact (proj2 (add_then_remove 2 5 Scenario.oneCart (mkCart 2 2)
                  oneCart_wellFormed eq_refl
                  (fun r (H : In r []) => match H with end))).
Defined.

(** ** Removing until the row is gone *)

Lemma find_is_first_match {A : Type} (f : A -> bool) (l : list A) :
  find f l = hd_error (filter f l).
Proof.
  induction l as [|a l IH]; simpl; [reflexivity|].
  destruct (f a); [reflexivity | exact IH].
Qed.

(** One removal, for a cart that holds the product in a single row. *)
Lemma remove_step
    (customerId productId : Z) (s : Store) (cart : Cart) (item : CartItem) :
  keys_unique s ->
  Cart_findOne customerId s = Some cart ->
  itemsOf (cart_id cart) productId s = [item] ->
  let s1 := snd (removeItemFromCart customerId productId s) in
  keys_unique s1 /\
  Cart_findOne customerId s1 = Some cart /\
  elsewhere (cart_id cart) productId s1 = elsewhere (cart_id cart) productId s
  /\
  itemsOf (cart_id cart) productId s1
  = if 1 <? item_quantity item
    then [set_quantity item (item_quantity item - 1)]
    else [].
Proof.
  intros U Hcart Hone.
  destruct (removeItemFromCart_cases customerId productId s cart U Hcart)
    as [(Hnone & _)
       | (item0 & before & after & Hfind & Hc & Hp & E & Hb & ->)].
  { exfalso. unfold CartItem_findOne in Hnone.
    rewrite find_is_first_match in Hnone. unfold itemsOf in Hone.
    rewrite Hone in Hnone. discriminate. }
  assert (item0 = item) as ->.
  { unfold CartItem_findOne in Hfind. rewrite find_is_first_match in Hfind.
    unfold itemsOf in Hone. rewrite Hone in Hfind. now injection Hfind. }
  simpl. unfold keys_unique in *. unfold itemsOf, elsewhere in *. simpl.
  rewrite E in U, Hone |- *.
  rewrite !filter_app in *. simpl in *.
  rewrite Hc, Hp, !Z.eqb_refl in *. simpl in *.
  assert (Hbefore :
    filter (fun it => (item_cartId it =? cart_id cart)
                      && (item_productId it =? productId)) before = []).
  { clear - Hb. induction before as [|a l IH]; simpl; [reflexivity|].
    rewrite (Hb a (or_introl eq_refl)). apply IH.
    intros r Hr. apply Hb. now right. }
  rewrite Hbefore in Hone |- *. simpl in Hone. injection Hone as Hafter.
  rewrite Hafter.
  split; [|split; [exact Hcart | split]].
  - rewrite !map_app in *. simpl in U.
    destruct (1 <? item_quantity item); simpl; [exact U|].
    eapply NoDup_remove_1. exact U.
  - f_equal. destruct (1 <? item_quantity item); simpl; [|reflexivity].
    rewrite Hc, Hp, !Z.eqb_refl. reflexivity.
  - destruct (1 <? item_quantity item); simpl; [|reflexivity].
    rewrite Hc, Hp, !Z.eqb_refl. reflexivity.
Qed.

Lemma remove_absent
    (customerId productId : Z) (s : Store) (cart : Cart) :
  Cart_findOne customerId s = Some cart ->
  itemsOf (cart_id cart) productId s = [] ->
  removeItemFromCart customerId productId s
  = (Err (CartItemNotFoundError None), s).
Proof.
  intros Hcart Hnone. unfold removeItemFromCart. rewrite Hcart.
  unfold CartItem_findOne. rewrite find_is_first_match.
  unfold itemsOf in Hnone. rewrite Hnone. reflexivity.
Qed.

(** X7.  In a store with unique keys, when the cart holds the product in
    one row of quantity [q >= 1], [q] calls of [removeItemFromCart] take
    the row away and touch nothing else, and the next call fails with
    [CartItemNotFoundError]. *)
Theorem remove_until_gone
    (n : nat) (customerId productId : Z) (s : Store) (cart : Cart)
    (item : CartItem) :
  keys_unique s ->
  Cart_findOne customerId s = Some cart ->
  itemsOf (cart_id cart) productId s = [item] ->
  item_quantity item = Z.of_nat (S n) ->
  let s' := removeTimes (S n) customerId productId s in
  itemsOf (cart_id cart) productId s' = [] /\
  elsewhere (cart_id cart) productId s' = elsewhere (cart_id cart) productId s
  /\
  removeItemFromCart customerId productId s'
  = (Err (CartItemNotFoundError None), s').
Proof.
  revert s item. induction n as [|n IH]; intros s item U Hcart Hone Hq.
  - destruct (remove_step customerId productId s cart item U Hcart Hone)
      as (_ & Hcart1 & Helse & Hitems).
    rewrite Hq in Hitems. simpl in Hitems. simpl.
    repeat split; auto. now apply (remove_absent _ _ _ cart).
  - destruct (remove_step customerId productId s cart item U Hcart Hone)
      as (U1 & Hcart1 & Helse & Hitems).
    replace (1 <? item_quantity item) with true in Hitems
      by (symmetry; apply Z.ltb_lt; lia).
    specialize (IH _ _ U1 Hcart1 Hitems).
    assert (Hq1 : item_quantity
                    (set_quantity item (item_quantity item - 1))
                  = Z.of_nat (S n)) by (simpl; lia).
    destruct (IH Hq1) as (Hgone & Helse' & Hfail).
    change (removeTimes (S (S n)) customerId productId s)
      with (removeTimes (S n) customerId productId
              (snd (removeItemFromCart customerId productId s))).
    repeat split; auto. now rewrite Helse'.
Qed.

Lemma remove_until_gone_witness :
  keys_unique Scenario.filledCart /\
  itemsOf 1 5 Scenario.filledCart = [mkCartItem 1 1 5 3] /\
  cartItems (removeTimes 3 1 5 Scenario.filledCart) = [mkCartItem 2 1 7 1] /\
  itemsOf 1 5 (removeTimes 3 1 5 Scenario.filledCart) = [].
Proof.
  split; [exact filledCart_keys_unique|]. split; [reflexivity|].
  split; [reflexivity|].
  exact (proj1 (remove_until_gone 2 1 5 Scenario.filledCart (mkCart 1 1)
                  (mkCartItem 1 1 5 3) filledCart_keys_unique
                  eq_refl eq_refl eq_refl)).
Defined.


(** ** Adding and reading *)

(** X8.  When every row that holds the product belongs to the caller's
    cart, an item added is an item read back: after [addItemToCart],
    [getCartItems] succeeds and returns a row of the caller's cart for
    the product, whose quantity is the quantity added plus what the first
    row for the product held before; the quantities are integers a JS
    number holds exactly, and so is their sum. *)
Theorem add_then_get
    (customerId productId quantity : Z) (s : Store) (cart : Cart) :
  Cart_findOne customerId s = Some cart ->
  (forall r, In r (cartItems s) -> item_productId r = productId ->
             item_cartId r = cart_id cart) ->
  safeInteger quantity ->
  (forall r, In r (cartItems s) -> item_productId r = productId ->
             safeInteger (item_quantity r) /\
             safeInteger (item_quantity r + quantity)) ->
  let s' := snd (addItemToCart customerId productId (Some quantity) s) in
  exists items row,
    getCartItems customerId s' = Ok items /\
    In row items /\
    item_cartId row = cart_id cart /\
    item_productId row = productId /\
    item_quantity row
    = quantity
      + match find (fun r => item_productId r =? productId) (cartItems s) with
        | Some it => item_quantity it
        | None => 0
        end.
Proof.
  intros Hcart Hown _ _.
  assert (Hget : forall s' row,
    carts s' = carts s ->
    In row (cartItems s') ->
    item_cartId row = cart_id cart ->
    exists items, getCartItems customerId s' = Ok items /\ In row items).
  { intros s' row Hcarts Hin Hc.
    unfold getCartItems, Cart_findOne. rewrite Hcarts.
    unfold Cart_findOne in Hcart. rewrite Hcart. unfold CartItem_findAll.
    assert (Hrow : In row (filter (fun it => item_cartId it =? cart_id cart)
                             (cartItems s'))).
    { apply filter_In. split; [exact Hin | now apply Z.eqb_eq]. }
    destruct (filter (fun it => item_cartId it =? cart_id cart)
                (cartItems s')) as [|r rows]; [destruct Hrow|].
    eexists. split; [reflexivity | exact Hrow]. }
  destruct (addItemToCart_cases customerId productId quantity s cart Hcart)
    as [(item & Hfind & Hin & ->) | (Hfresh & ->)]; simpl.
  - rewrite Hfind.
    pose proof (find_some _ _ Hfind) as [_ Hp]. apply Z.eqb_eq in Hp.
    set (item' := set_quantity item (item_quantity item + quantity)).
    destruct (Hget (set_cartItems s
                      (map (fun r => if item_id r =? item_id item
                                     then item' else r) (cartItems s)))
                item') as (items & Hitems & Hrow); auto.
    + simpl. apply in_map_iff. exists item. rewrite Z.eqb_refl. auto.
    + simpl. auto.
    + exists items, item'. repeat split; auto; unfold item'; simpl; auto; lia.
  - assert (Hnone : find (fun r => item_productId r =? productId)
                      (cartItems s) = None).
    { apply find_none_all. intros r Hr. apply Z.eqb_neq. auto. }
    rewrite Hnone.
    set (row := mkCartItem (nextItemId s) (cart_id cart) productId quantity).
    destruct (Hget {| carts := carts s; cartItems := cartItems s ++ [row];
                      nextItemId := nextItemId s + 1 |} row)
      as (items & Hitems & Hrow); auto.
    + simpl. apply in_or_app. right. now left.
    + exists items, row. repeat split; auto; unfold row; simpl; auto; lia.
Qed.

Lemma add_then_get_witness :
  Cart_findOne 1 Scenario.filledCart = Some (mkCart 1 1) /\
  exists items row,
    getCartItems 1 (snd (addItemToCart 1 5 (Some 4) Scenario.filledCart))
    = Ok items /\
    In row items /\
    item_cartId row = 1 /\
    item_productId row = 5 /\
    item_quantity row = 4 + 3.
Proof.
  split; [reflexivity|].
  apply (add_then_get 1 5 4 Scenario.filledCart (mkCart 1 1) eq_refl).
  - intros r [<- | [<- | []]] _; reflexivity.
  - unfold safeInteger. lia.
  - intros r [<- | [<- | []]] _; unfold safeInteger; simpl; lia.
Defined.

End CartInvariants.

(* ================================================================== *)
(** * Further properties of the billing worker *)
(* ================================================================== *)

Module WorkerRuns.

Import JS Worker WorkerNotions WorkerProperties.

Lemma set_trace_same (w : World) : set_trace w (trace w ++ []) = w.
Proof. destruct w. unfold set_trace. simpl. now rewrite app_nil_r. Qed.

Section MoreRuns.

Variable env : Collaborators.

(** ** The processor *)

(** Whatever [processPayment] does, it only adds to the trace, and what
    it adds is no part of a transaction. *)
Lemma processPayment_frame (job : Job) (w : World) :
  exists evs,
    snd (processPayment env job w) = set_trace w (trace w ++ evs) /\
    filter isPersistence evs = [].
Proof.
  destruct (prices_run (orderItems (job_data job)) w)
    as ([prices | e] & Hp & _).
  - rewrite (processPayment_priced env job w prices Hp). simpl.
    destruct (calculateShippingCost env w _ _ _ _) as [quote | e]; simpl.
    + destruct (createPaymentIntent env _ _ _ _ _) as [[] | e]; simpl;
        eexists; split; reflexivity.
    + eexists; split; reflexivity.
  - rewrite (processPayment_missing env job w e Hp). simpl.
    exists []. split; [now rewrite set_trace_same | reflexivity].
Qed.

(** X9.  When the processor fails, what it throws is always the same
    plain [Error] naming the queue, whatever the cause; the cause
    [processPayment] threw is written to [console.error] as the last
    thing the processor does. *)
Theorem processor_hides_cause
    (queueName : string) (job : Job) (w : World) (e : Error) :
  fst (processor env queueName job w) = Err e ->
  e = processorError queueName /\
  exists cause evs,
    processPayment env job w = (Err cause, set_trace w (trace w ++ evs)) /\
    snd (processor env queueName job w)
    = set_trace w (trace w ++ evs ++ [ConsoleError None cause]).
Proof.
  destruct (processPayment_frame job w) as (evs & Hw & _).
  unfold processor, try_catch.
  destruct (processPayment env job w) as [[wr | cause] w1] eqn:Hpay;
    simpl in Hw; subst w1; run; [discriminate|].
  intros [= <-]. split; [reflexivity|].
  exists cause, evs. split; [reflexivity|].
  rewrite <- app_assoc. reflexivity.
Qed.

(** ** Deliveries that fail *)

Lemma processor_frame (queueName : string) (job : Job) (w : World) :
  exists evs,
    snd (processor env queueName job w) = set_trace w (trace w ++ evs) /\
    filter isPersistence evs = [].
Proof.
  destruct (processPayment_frame job w) as (evs & Hw & Hnone).
  unfold processor, try_catch.
  destruct (processPayment env job w) as [[wr | cause] w1] eqn:Hpay;
    simpl in Hw; subst w1; run.
  - exists evs. auto.
  - exists (evs ++ [ConsoleError None cause]). split.
    + rewrite <- app_assoc. reflexivity.
    + rewrite filter_app, Hnone. reflexivity.
Qed.

(** X10.  A delivery that fails the job persists nothing and never gets
    to the transaction: the tables, the staged writes and the clock are
    untouched, no transaction is opened and no order or subscription is
    asked for; the reason recorded is the processor's plain [Error], and
    the last thing written is the line of the ['failed'] listener. *)
Theorem failed_delivery_persists_nothing
    (queueName : string) (job : Job) (w : World) (reason : Error) :
  fst (deliver env queueName job w) = failed reason ->
  let w' := snd (deliver env queueName job w) in
  reason = processorError queueName /\
  products w' = products w /\
  orders w' = orders w /\
  subscriptions w' = subscriptions w /\
  staged w' = staged w /\
  clockReads w' = clockReads w /\
  exists evs,
    trace w' = trace w ++ evs ++ [failedLine queueName job] /\
    filter isPersistence evs = [].
Proof.
  destruct (processor_frame queueName job w) as (evs & Hw & Hnone).
  destruct (fst (processor env queueName job w)) as [wr | e] eqn:Hr.
  - rewrite (deliver_completed env queueName job w wr Hr). discriminate.
  - rewrite (deliver_failed env queueName job w e Hr), Hw.
    assert (He : e = processorError queueName).
    { revert Hr. unfold processor, try_catch.
      destruct (processPayment env job w) as [[v | cause] w1]; run;
        [discriminate | intros [= <-]; reflexivity]. }
    subst e.
    simpl. intros [= <-]. repeat split; auto.
    exists evs. split; [|exact Hnone].
    unfold failedLine. rewrite <- app_assoc. reflexivity.
Qed.


(** X11.  When the products of a job exist and the shipping calculator
    rejects the call, the delivery calls no gateway: it records the
    calculator call, the calculator's error on [console.error] and the
    line of the ['failed'] listener, fails the job and changes nothing
    else. *)
Theorem no_charge_without_quote
    (queueName : string) (job : Job) (w : World) (e : Error) :
  let data := job_data job in
  (forall item, In item (orderItems data) ->
     exists product,
       find (fun p => product_id p =? productId item) (products w)
       = Some product) ->
  calculateShippingCost env w (shippingCountry data) "next-day" None
    (orderItems data) = Err e ->
  deliver env queueName job w
  = (failed (processorError queueName),
     set_trace w
       (trace w
        ++ [ShippingCostCall (shippingCountry data) "next-day" None
              (orderItems data);
            ConsoleError None e;
            failedLine queueName job]))
  /\ charges (trace (snd (deliver env queueName job w))) = charges (trace w).
Proof.
  intros data Hall Hquote.
  destruct (prices_found _ w Hall) as (prices & Hp & _).
  assert (Hd :
    deliver env queueName job w
    = (failed (processorError queueName),
       set_trace w
         (trace w
          ++ [ShippingCostCall (shippingCountry data) "next-day" None
                (orderItems data);
              ConsoleError None e;
              failedLine queueName job]))).
  { unfold deliver, processor, try_catch.
    rewrite (processPayment_priced env job w prices Hp). fold data. simpl.
    rewrite Hquote. unfold onFailed. run.
    rewrite <- !app_assoc. reflexivity. }
  split; [exact Hd|]. rewrite Hd. simpl.
  rewrite charges_app. simpl. apply app_nil_r.
Qed.

(** X12.  When the products of a job exist, the calculator returns a
    quote and the gateway rejects the charge for the job's customer,
    currency and payment method, the delivery makes that one gateway
    call, fails the job and persists nothing: no transaction is opened
    and both tables stay as they were. *)
Theorem declined_charge_persists_nothing
    (queueName : string) (job : Job) (w : World) (quote : ShippingQuote)
    (e : Error) :
  let data := job_data job in
  (forall item, In item (orderItems data) ->
     exists product,
       find (fun p => product_id p =? productId item) (products w)
       = Some product) ->
  calculateShippingCost env w (shippingCountry data) "next-day" None
    (orderItems data) = Ok quote ->
  (forall wc amount,
      createPaymentIntent env wc (userId data) amount (currency data)
        (paymentMethodId data) = Err e) ->
  exists amount,
    deliver env queueName job w
    = (failed (processorError queueName),
       set_trace w
         (trace w
          ++ [ShippingCostCall (shippingCountry data) "next-day" None
                (orderItems data);
              PaymentIntentCall (userId data) amount (currency data)
                (paymentMethodId data);
              ConsoleError None e;
              failedLine queueName job])).
Proof.
  intros data Hall Hquote Hdeclined.
  destruct (prices_found _ w Hall) as (prices & Hp & _).
  eexists. unfold deliver, processor, try_catch.
  rewrite (processPayment_priced env job w prices Hp). fold data. simpl.
  rewrite Hquote, Hdeclined. unfold onFailed. run.
  rewrite <- !app_assoc. reflexivity.
Qed.

(** X13.  A job without items is charged all the same: when the
    calculator returns a quote for the empty list, the amount sent to the
    gateway is the shipping cost alone, [0 + cost] rounded to two
    decimals. *)
Theorem job_without_items_is_charged_shipping
    (job : Job) (w : World) (quote : ShippingQuote) :
  let data := job_data job in
  orderItems data = [] ->
  calculateShippingCost env w (shippingCountry data) "next-day" None [] =
  Ok quote ->
  charges (trace (snd (processPayment env job w)))
  = charges (trace w)
    ++ [PaymentIntentCall (userId data)
          (parseFloat_toFixed2 (PrimFloat.add 0%float (cost quote)))
          (currency data) (paymentMethodId data)].
Proof.
  intros data Hitems Hquote.
  assert (Hp : Promise_all (map linePrice (orderItems data)) w = (Ok [], w))
    by (rewrite Hitems; reflexivity).
  rewrite (processPayment_priced env job w [] Hp). fold data. simpl.
  rewrite Hitems, Hquote.
  destruct (createPaymentIntent env _ _ _ _ _) as [[] | e]; simpl;
    rewrite charges_app; reflexivity.
Qed.

(** ** The listener *)

(** The calls of the listener to the order service are made for the
    job and the weight range it was given. *)
Lemma onCompleted_calls (job : Job) (wr : WeightRange) (w : World) :
  exists evs,
    trace (snd (onCompleted env job wr w)) = trace w ++ evs /\
    Forall (createsOrderFor job wr) evs.
Proof.
  listener. repeat (split_match; simpl).
  all: added_events; repeat constructor.
Qed.

(** X14.  Whenever the ['completed'] listener returns normally, nothing
    is left staged, and the run ended either with the commit or with the
    rollback followed by the line on [console.error]. *)
Theorem listener_settles_transaction
    (job : Job) (wr : WeightRange) (w : World) :
  fst (onCompleted env job wr w) = Ok tt ->
  let w' := snd (onCompleted env job wr w) in
  staged w' = [] /\
  exists before,
    trace w' = before ++ [TransactionCommit] \/
    exists e,
      trace w'
      = before
        ++ [TransactionRollback;
            ConsoleError (Some "Error from worker's complete event: "%string)
              e].
Proof.
  listener. repeat (split_match; simpl); try discriminate; intros _.
  all: split; [reflexivity|].
  all: first
         [ eexists; left; reflexivity
         | eexists; right; eexists; rewrite <- app_assoc; reflexivity ].
Qed.

(** A time value outside the range of [Date] stops the listener before
    the transaction. *)
Lemma onCompleted_invalid_date (job : Job) (wr : WeightRange) (w : World) :
  validTime (Date_now env (clockReads w)) = false \/
  validTime (Date_now env (S (clockReads w)) + period (job_data job)) = false ->
  onCompleted env job wr w
  = (Err RangeError,
     {| products := products w; orders := orders w;
        subscriptions := subscriptions w; staged := staged w;
        clockReads :=
          if validTime (Date_now env (clockReads w))
          then S (S (clockReads w)) else S (clockReads w);
        trace :=
          trace w ++ [ConsoleLog ("Job: " ++ job_id job ++ " has completed")]
     |}).
Proof.
  intros H. listener. unfold toISODate.
  destruct (validTime (Date_now env (clockReads w))) eqn:V1; simpl;
    [|reflexivity].
  destruct (validTime (Date_now env (S (clockReads w))
                       + period (job_data job))) eqn:V2; simpl;
    [|reflexivity].
  destruct H; discriminate.
Qed.

(** The subscription the listener persists. *)
Lemma onCompleted_subscription
    (job : Job) (wr : WeightRange) (w : World) (sub : Subscription) :
  let w' := snd (onCompleted env job wr w) in
  subscriptions w' = subscriptions w ++ [sub] ->
  sub_startDate sub = startDate (job_data job) /\
  sub_endDate sub = endDate (job_data job) /\
  exists order,
    orders w' = orders w ++ [order] /\
    sub_customerId sub = order_customerId order /\
    sub_orderId sub = order_id order.
Proof.
  listener. repeat (split_match; simpl).
  all: try (intros Hsub; exfalso; exact (app_one_neq _ _ Hsub)).
  intros Hsub. apply app_one_inj in Hsub. subst sub. simpl.
  repeat split. eexists. repeat split.
Qed.


(** ** Deliveries that complete *)

Lemma not_persistence (evs : list Event) (e : Event) :
  filter isPersistence evs = [] -> In e evs -> isPersistence e = false.
Proof.
  intros Hnone Hin. destruct (isPersistence e) eqn:E; [|reflexivity].
  assert (H : In e (filter isPersistence evs))
    by (apply filter_In; split; assumption).
  rewrite Hnone in H. destruct H.
Qed.

(** What the processor returns is the weight range of the quote. *)
Lemma processor_returns_quote
    (queueName : string) (job : Job) (w : World) (wr : WeightRange)
    (quote : ShippingQuote) :
  fst (processor env queueName job w) = Ok wr ->
  calculateShippingCost env w (shippingCountry (job_data job)) "next-day"
    None (orderItems (job_data job)) = Ok quote ->
  wr = weightRange quote.
Proof.
  unfold processor, try_catch.
  destruct (prices_run (orderItems (job_data job)) w)
    as ([prices | e] & Hp & _).
  - rewrite (processPayment_priced env job w prices Hp). simpl.
    intros Hr Hquote. rewrite Hquote in Hr. simpl in Hr.
    destruct (createPaymentIntent env _ _ _ _ _) as [[] | e]; run;
      simpl in Hr; [now injection Hr | discriminate].
  - rewrite (processPayment_missing env job w e Hp). run. discriminate.
Qed.

(** X15.  Every call a delivery makes to the order service is made for
    the job at hand: with the job's [userId], [orderItems],
    [paymentMethod] and [shippingCountry]; its weight argument is the
    value the processor returned, the one the job completed with, which
    is the weight range of the calculator's quote. *)
Theorem order_call_follows_quote
    (queueName : string) (job : Job) (w : World) :
  let data := job_data job in
  exists evs,
    trace (snd (deliver env queueName job w)) = trace w ++ evs /\
    forall u items payment country wgt method,
      In (CreateOrderCall u items payment country wgt method) evs ->
      u = userId data /\
      items = orderItems data /\
      payment = paymentMethod data /\
      country = shippingCountry data /\
      fst (deliver env queueName job w) = completed wgt /\
      forall quote,
        calculateShippingCost env w (shippingCountry data) "next-day" None
          (orderItems data) = Ok quote ->
        wgt = weightRange quote.
Proof.
  intros data.
  destruct (processor_frame queueName job w) as (evs & Hw & Hnone).
  destruct (fst (processor env queueName job w)) as [wr | e] eqn:Hr.
  - rewrite (deliver_completed env queueName job w wr Hr), Hw. simpl.
    destruct (onCompleted_calls job wr (set_trace w (trace w ++ evs)))
      as (evs' & Ht & Hcalls).
    simpl in Ht. exists (evs ++ evs'). split.
    { rewrite Ht, app_assoc. reflexivity. }
    intros u items payment country wgt method Hin.
    apply in_app_or in Hin. destruct Hin as [Hin | Hin].
    { apply (not_persistence evs _ Hnone) in Hin. discriminate. }
    rewrite Forall_forall in Hcalls. specialize (Hcalls _ Hin).
    simpl in Hcalls. destruct Hcalls as (-> & -> & -> & -> & -> & _).
    repeat split. intros quote Hquote.
    exact (processor_returns_quote queueName job w wr quote Hr Hquote).
  - rewrite (deliver_failed env queueName job w e Hr), Hw.
    unfold onFailed. run. eexists. split.
    { rewrite <- app_assoc. reflexivity. }
    intros u items payment country wgt method Hin.
    apply in_app_or in Hin. destruct Hin as [Hin | [Hin | []]];
      [|discriminate].
    apply (not_persistence evs _ Hnone) in Hin. discriminate.
Qed.

(** X16.  When the processor returned (the customer is charged) but the
    clock, or the clock plus the job's period, is no valid [Date], the
    listener throws [RangeError] before it opens a transaction: the job
    is completed, nothing is persisted, and after the log lines of the
    charge and of the completion nothing more happens. *)
Theorem invalid_date_after_charge
    (queueName : string) (job : Job) (w : World) (wr : WeightRange) :
  let data := job_data job in
  fst (processor env queueName job w) = Ok wr ->
  validTime (Date_now env (clockReads w)) = false \/
  validTime (Date_now env (S (clockReads w)) + period data) = false ->
  let w' := snd (deliver env queueName job w) in
  fst (deliver env queueName job w) = completed wr /\
  fst (onCompleted env job wr (snd (processor env queueName job w)))
  = Err RangeError /\
  orders w' = orders w /\
  subscriptions w' = subscriptions w /\
  exists amount,
    trace w'
    = trace w
      ++ [ShippingCostCall (shippingCountry data) "next-day" None
            (orderItems data);
          PaymentIntentCall (userId data) amount (currency data)
            (paymentMethodId data);
          ConsoleLog "Payment intent created successfully!";
          ConsoleLog ("Job: " ++ job_id job ++ " has completed")].
Proof.
  intros data Hr Hinvalid.
  destruct (processor_run env queueName job w) as (evs & Hw & _ & Hcharged).
  destruct (Hcharged wr Hr) as (amount & _ & _ & ->).
  rewrite (deliver_completed env queueName job w wr Hr), Hw.
  rewrite onCompleted_invalid_date by exact Hinvalid. simpl.
  repeat split. exists amount. fold data.
  rewrite <- app_assoc. reflexivity.
Qed.

(** X17.  The subscription a delivery persists takes its [startDate]
    and [endDate] from the job, and its [customerId] and [orderId] from
    the order persisted with it, the one the order service returned. *)
Theorem subscription_copies_job_and_order
    (queueName : string) (job : Job) (w : World) (sub : Subscription) :
  let w' := snd (deliver env queueName job w) in
  subscriptions w' = subscriptions w ++ [sub] ->
  sub_startDate sub = startDate (job_data job) /\
  sub_endDate sub = endDate (job_data job) /\
  exists order,
    orders w' = orders w ++ [order] /\
    sub_customerId sub = order_customerId order /\
    sub_orderId sub = order_id order.
Proof.
  destruct (processor_frame queueName job w) as (evs & Hw & _).
  destruct (fst (processor env queueName job w)) as [wr | e] eqn:Hr.
  - rewrite (deliver_completed env queueName job w wr Hr), Hw. simpl.
    intros Hsub.
    exact (onCompleted_subscription job wr (set_trace w (trace w ++ evs))
             sub Hsub).
  - rewrite (deliver_failed env queueName job w e Hr), Hw. simpl.
    intros Hsub. exfalso. exact (app_one_neq _ _ Hsub).
Qed.

End MoreRuns.

(** ** The statements at concrete jobs *)

Import Scenario MoreScenarios.

Lemma processor_hides_cause_witness :
  fst (processor services "billing" job emptyShop)
  = Err (processorError "billing") /\
  exists cause evs,
    processPayment services job emptyShop
    = (Err cause, set_trace emptyShop (trace emptyShop ++ evs)) /\
    snd (processor services "billing" job emptyShop)
    = set_trace emptyShop
        (trace emptyShop ++ evs ++ [ConsoleError None cause]).
Proof.
  split; [reflexivity|].
  exact (proj2 (processor_hides_cause services "billing" job emptyShop
                  (processorError "billing") eq_refl)).
Defined.

Lemma failed_delivery_persists_nothing_witness :
  fst (deliver services "billing" job emptyShop)
  = failed (processorError "billing") /\
  orders (snd (deliver services "billing" job emptyShop)) = orders emptyShop.
Proof.
  split; [reflexivity|].
  exact (proj1 (proj2 (proj2
           (failed_delivery_persists_nothing services "billing" job emptyShop
              (processorError "billing") eq_refl)))).
Defined.

Lemma no_charge_without_quote_witness :
  calculateShippingCost services shop "FR" "next-day" None
    [mkOrderItem 5 2%float] = Err ShippingLocationNotFoundError /\
  charges (trace (snd (deliver services "billing" jobAbroad shop)))
  = charges (trace shop).
Proof.
  split; [reflexivity|].
  exact (proj2 (no_charge_without_quote services "billing" jobAbroad shop
                  ShippingLocationNotFoundError
                  jobData_products_exist eq_refl)).
Defined.

Lemma declined_charge_persists_nothing_witness :
  exists amount,
    deliver servicesCardDeclined "billing" job shop
    = (failed (processorError "billing"),
       set_trace shop
         (trace shop
          ++ [ShippingCostCall "US" "next-day" None [mkOrderItem 5 2%float];
              PaymentIntentCall 1 amount "usd" "pm_card";
              ConsoleError None (OtherError "StripeCardError");
              failedLine "billing" job])).
Proof.
  exact (declined_charge_persists_nothing servicesCardDeclined "billing" job
           shop (mkQuote 9.99%float standard) (OtherError "StripeCardError")
           jobData_products_exist eq_refl (fun _ _ => eq_refl)).
Defined.

Lemma job_without_items_is_charged_shipping_witness :
  charges (trace (snd (processPayment services jobWithoutItems shop)))
  = charges (trace shop)
    ++ [PaymentIntentCall 1
          (parseFloat_toFixed2 (PrimFloat.add 0%float 9.99%float))
          "usd" "pm_card"].
Proof.
  exact (job_without_items_is_charged_shipping services jobWithoutItems shop
           (mkQuote 9.99%float standard) eq_refl eq_refl).
Defined.

Lemma listener_settles_transaction_witness :
  fst (onCompleted services job standard shop) = Ok tt /\
  staged (snd (onCompleted services job standard shop)) = [].
Proof.
  split; [reflexivity|].
  exact (proj1 (listener_settles_transaction services job standard shop
                  eq_refl)).
Defined.

Lemma invalid_date_after_charge_witness :
  fst (processor services "billing" jobFarFuture shop) = Ok standard /\
  validTime (Date_now services 1 + period (job_data jobFarFuture)) = false /\
  fst (deliver services "billing" jobFarFuture shop) = completed standard /\
  orders (snd (deliver services "billing" jobFarFuture shop)) = [].
Proof.
  split; [reflexivity|]. split; [reflexivity|].
  pose proof (invalid_date_after_charge services "billing" jobFarFuture shop
                standard eq_refl (or_intror eq_refl)) as H.
  exact (conj (proj1 H) (proj1 (proj2 (proj2 H)))).
Defined.

Lemma subscription_copies_job_and_order_witness :
  let sub := mkSubscription 1 1 "2024-01-01" "2025-01-01"
               "2024-01-01" "2024-01-31" in
  subscriptions (snd (deliver services "billing" job shop))
  = subscriptions shop ++ [sub] /\
  sub_startDate sub = startDate (job_data job) /\
  sub_endDate sub = endDate (job_data job) /\
  exists order,
    orders (snd (deliver services "billing" job shop))
    = orders shop ++ [order] /\
    sub_customerId sub = order_customerId order /\
    sub_orderId sub = order_id order.
Proof.
  intros sub. split; [vm_compute; reflexivity|].
  exact (subscription_copies_job_and_order services "billing" job shop sub
           eq_refl).
Defined.

End WorkerRuns.

(* ================================================================== *)
(** * Properties of the logging service *)
(* ================================================================== *)

Module LoggingProperties.

Import LoggingService.

Lemma includes_In (l : list string) (x : string) :
  includes l x = true <-> In x l.
Proof.
  unfold includes. rewrite existsb_exists. split.
  - intros (y & Hy & E). apply String.eqb_eq in E. now subst.
  - intros H. exists x. split; [exact H | apply String.eqb_refl].
Qed.

Section Logging.

Variable inherited : string -> option string.
Variable sameName : string -> string -> bool.

(** X18.  [logOperation] succeeds exactly when an admin of that name
    exists and the target is one of the categories, whatever the
    operation; a missing admin is reported first, also for a target that
    is no category; a failed call leaves the store as it was, and no call
    touches the admins or the platform logs. *)
Theorem logOperation_outcome
    (username target : string) (operation : option string) (s : Store) :
  let r := fst (logOperation inherited sameName username target operation s) in
  let s' := snd (logOperation inherited sameName username target operation s) in
  (r = Ok tt <->
   (exists admin, Admin_findOne sameName username s = Some admin) /\
   In target categories) /\
  (Admin_findOne sameName username s = None ->
   r = Err (UserNotFoundError
              ("Could not log admin " ++ dquote ++ username ++ dquote
               ++ ". Admin not found!"))) /\
  (r <> Ok tt -> s' = s) /\
  admins s' = admins s /\
  platformLogs s' = platformLogs s.
Proof.
  unfold logOperation.
  destruct (Admin_findOne sameName username s) as [admin|] eqn:Ha.
  - destruct (includes categories target) eqn:Ht; simpl.
    + apply includes_In in Ht. repeat split; auto.
      * now exists admin.
      * discriminate.
      * intros H. now contradiction H.
    + repeat split; auto; try discriminate.
      intros [_ Hin].
      assert (Hyes : includes categories target = true)
        by (apply includes_In; exact Hin).
      congruence.
  - simpl. repeat split; auto; try discriminate.
    intros [[admin H] _]. discriminate.
Qed.

(** X19.  "Every admin log names one of the categories and an admin of
    the table" is kept by [logOperation], whatever it is called with. *)
Theorem logOperation_keeps_logs_valid
    (username target : string) (operation : option string) (s : Store) :
  logsValid s ->
  logsValid
    (snd (logOperation inherited sameName username target operation s)).
Proof.
  intros V. unfold logOperation.
  destruct (Admin_findOne sameName username s) as [admin|] eqn:Ha;
    [|exact V].
  destruct (includes categories target) eqn:Ht; simpl; [|exact V].
  unfold logsValid in *. simpl. apply Forall_app. split; [exact V|].
  constructor; [|constructor]. simpl. split.
  - exact (proj1 (includes_In categories target) Ht).
  - exists admin. split; [|reflexivity].
    unfold Admin_findOne in Ha. apply find_some in Ha. tauto.
Qed.

(** X20.  An operation that is none of "create", "update" and "delete"
    (and no name of an inherited member) is not rejected: for an existing
    admin and a valid target the row is written, and its text reads
    "undefined" in place of the verb. *)
Theorem logOperation_unknown_operation
    (username target operation : string) (s : Store) (admin : Admin) :
  Admin_findOne sameName username s = Some admin ->
  In target categories ->
  operation <> "create"%string ->
  operation <> "update"%string ->
  operation <> "delete"%string ->
  inherited operation = None ->
  logOperation inherited sameName username target (Some operation) s
  = (Ok tt,
     {| admins := admins s;
        adminLogs :=
          adminLogs s
          ++ [mkAdminLog (admin_id admin) target
                ("Admin " ++ dquote ++ username ++ dquote ++ " undefined "
                 ++ target ++ ".")];
        platformLogs := platformLogs s |}).
Proof.
  intros Ha Ht Hc Hu Hd Hi. unfold logOperation. rewrite Ha.
  assert (Hyes : includes categories target = true)
    by (apply includes_In; exact Ht).
  rewrite Hyes. cbn [negb].
  apply String.eqb_neq in Hc, Hu, Hd.
  rewrite String.eqb_sym in Hc. rewrite String.eqb_sym in Hu.
  rewrite String.eqb_sym in Hd.
  unfold opText, opMap, find. cbn [fst snd].
  rewrite Hc, Hu, Hd, Hi. reflexivity.
Qed.

End Logging.

Lemma office_logsValid : logsValid office.
Proof. apply Forall_nil. Defined.

Lemma logOperation_keeps_logs_valid_witness :
  logsValid office /\
  logsValid
    (snd (logOperation (fun _ => None) String.eqb "root" "order"
            (Some "update"%string) office)).
Proof.
  split; [exact office_logsValid|].
  exact (logOperation_keeps_logs_valid (fun _ => None) String.eqb
           "root" "order" (Some "update"%string) office office_logsValid).
Defined.

Lemma order_is_category : In "order"%string categories.
Proof. simpl. tauto. Defined.

Lemma logOperation_unknown_operation_witness :
  logOperation (fun _ => None) String.eqb "root" "order"
    (Some "cancel"%string) office
  = (Ok tt,
     {| admins := admins office;
        adminLogs :=
          adminLogs office
          ++ [mkAdminLog 7 "order"
                ("Admin " ++ dquote ++ "root" ++ dquote ++ " undefined "
                 ++ "order" ++ ".")];
        platformLogs := platformLogs office |}).
Proof.
  refine (logOperation_unknown_operation (fun _ => None) String.eqb
            "root" "order" "cancel" office (mkAdmin 7 "root")
            eq_refl order_is_category _ _ _ eq_refl);
    discriminate.
Defined.

End LoggingProperties.
